(** * The text editor: selection tracking, splice-back and what surrounds it

    A shallow embedding of the editor of src/app.py
    ([TextEditor.copy_to_context], [TextEditor.apply_modified], the reset,
    load, save, generation and prompt-box handlers), of the document class
    of utils/document.py, and of the pure parts of the agents (the parser of
    the research agent's answer, the result of the scraping agent), together
    with the Python string operations they rely on ([str.strip], [str.find],
    [str.split], [str.replace], slicing).  The hosted models, the store, the
    file system and the clock are parameters of the functions that use
    them. *)

From Stdlib Require Import Strings.String Strings.Ascii Numbers.DecimalString.
From Stdlib Require Import ZArith NArith List Bool Lia.
Import ListNotations.
Local Open Scope Z_scope.

(** ** Python strings

    A Python [str] is a sequence of Unicode code points; [len], slicing and
    [find] all count code points.  The fixed ASCII literals of the program
    (diagnostics, dictionary keys, timestamps) are kept as library strings. *)

Module PyStr.

Definition char := N.
Definition str := list char.

Definition len (s : str) : Z := Z.of_nat (List.length s).

(** Truthiness of a string: [if s] / [not s]. *)
Definition truthy (s : str) : bool :=
  match s with
  | [] => false
  | _ :: _ => true
  end.

(** Code points for which [str.isspace] holds; these are the ones
    [str.strip()] and [str.split()] treat as whitespace. *)
Definition is_space (c : char) : bool :=
  (((9 <=? c) && (c <=? 13)) || ((28 <=? c) && (c <=? 32))
   || (c =? 133) || (c =? 160) || (c =? 5760)
   || ((8192 <=? c) && (c <=? 8202))
   || (c =? 8232) || (c =? 8233) || (c =? 8239) || (c =? 8287)
   || (c =? 12288))%N.

Fixpoint lstrip (s : str) : str :=
  match s with
  | [] => []
  | c :: s' => if is_space c then lstrip s' else s
  end.

Definition rstrip (s : str) : str := rev (lstrip (rev s)).

(** [s.strip()] *)
Definition strip (s : str) : str := rstrip (lstrip s).

(** [s == t] *)
Fixpoint eqb (s t : str) : bool :=
  match s, t with
  | [], [] => true
  | c :: s', d :: t' => (c =? d)%N && eqb s' t'
  | _, _ => false
  end.

(** Normalisation of one slice bound against a sequence of length [n]:
    a negative bound counts from the end, and every bound is clamped
    into [0, n]. *)
Definition adjust (n i : Z) : Z :=
  if i <? 0 then Z.max 0 (i + n) else Z.min i n.

(** [s[lo:hi]], where [None] is an omitted bound. *)
Definition slice (s : str) (lo hi : option Z) : str :=
  let n := len s in
  let i := match lo with Some i => adjust n i | None => 0 end in
  let j := match hi with Some j => adjust n j | None => n end in
  firstn (Z.to_nat (j - i)) (skipn (Z.to_nat i) s).

(** [s[i:j]], [s[:j]] and [s[i:]] *)
Definition sub (s : str) (i j : Z) : str := slice s (Some i) (Some j).
Definition upto (s : str) (j : Z) : str := slice s None (Some j).
Definition from (s : str) (i : Z) : str := slice s (Some i) None.

(** [s.startswith(p)] *)
Fixpoint startswith (s p : str) : bool :=
  match p, s with
  | [], _ => true
  | _ :: _, [] => false
  | c :: p', d :: s' => (c =? d)%N && startswith s' p'
  end.

Fixpoint find_at (s p : str) (i : Z) : Z :=
  if startswith s p then i
  else match s with
       | [] => -1
       | _ :: s' => find_at s' p (i + 1)
       end.

(** [s.find(p)]: the lowest index at which [p] occurs in [s], or [-1]. *)
Definition find (s p : str) : Z := find_at s p 0.

Fixpoint split_acc (s : str) (cur : str) : list str :=
  match s with
  | [] => if truthy cur then [rev cur] else []
  | c :: s' =>
      if is_space c
      then (if truthy cur then rev cur :: split_acc s' [] else split_acc s' [])
      else split_acc s' (c :: cur)
  end.

(** [s.split()]: the maximal runs of non-whitespace code points. *)
Definition split (s : str) : list str := split_acc s [].

(** A string is blank when it is empty or made of whitespace only. *)
Definition blank (s : str) : bool := forallb is_space s.

(** [p] occurs verbatim in [s]. *)
Definition occurs (p s : str) : Prop := exists pre post, s = pre ++ p ++ post.

(** An ASCII literal as a Python string. *)
Definition of_string (s : string) : str :=
  map N_of_ascii (list_ascii_of_string s).

(** [f"{z}"] for an integer [z]. *)
Definition format_int (z : Z) : string :=
  NilZero.string_of_int (Z.to_int z).

End PyStr.

Import PyStr.

(** ** The document (src/tech_europe_hackathon/utils/document.py) *)

Module Doc.

(** The metadata dictionary: string keys in insertion order. *)
Definition dict := list (string * string).

(** [d[k] = v] *)
Fixpoint dict_set (k v : string) (d : dict) : dict :=
  match d with
  | [] => [(k, v)]
  | (k', v') :: d' =>
      if String.eqb k k' then (k, v) :: d' else (k', v') :: dict_set k v d'
  end.

Record TextDocument := {
  text : str;
  footnotes : list str;
  metadata : dict
}.

(** [TextDocument.update_text]; [now] is the reading of
    [datetime.now().strftime('%Y-%m-%dT%H:%M:%SZ')] taken by the call. *)
Definition update_text (d : TextDocument) (new_text : str) (now : string)
  : TextDocument :=
  {| text := new_text;
     footnotes := footnotes d;
     metadata := dict_set "last_modified"%string now (metadata d) |}.

End Doc.

(** ** The editor (src/app.py, class [TextEditor]) *)

Module Editor.

Import Doc.

(** The fields of [TextEditor] that capture and splice read or write.
    The storage, audio and agent handles are not touched by them. *)
Record TextEditor := {
  document : TextDocument;
  selection_start : Z;
  selection_end : Z
}.

(** Assignment to [self.selection_start] and [self.selection_end]. *)
Definition set_selection (self : TextEditor) (s e : Z) : TextEditor :=
  {| document := document self; selection_start := s; selection_end := e |}.

(** The notification a call displays: [gr.Warning(msg)] or [gr.Info(msg)].
    Neither interrupts the call. *)
Inductive toast :=
| Warning (msg : string)
| Info (msg : string).

(** What a method call leaves behind: the editor after the call, the
    notification shown and the returned value. *)
Record outcome (A : Type) := {
  editor : TextEditor;
  shown : toast;
  value : A
}.
Arguments editor {A} _.
Arguments shown {A} _.
Arguments value {A} _.

Definition refused {A} (r : outcome A) : bool :=
  match shown r with
  | Warning _ => true
  | Info _ => false
  end.

Definition succeeded {A} (r : outcome A) : bool := negb (refused r).

(** The second component returned by [copy_to_context]: the empty string
    on the warning path, otherwise the one-row table
    [[words, chars, selection_range]]. *)
Inductive context_data :=
| NoData
| Stats (words chars : Z) (selection_range : string).

(** [f"{s}:{e}"] *)
Definition range_text (s e : Z) : string :=
  (format_int s ++ ":" ++ format_int e)%string.

Definition no_text_to_copy : string :=
  "No text to copy."%string.
Definition copied_info (s e : Z) : string :=
  ("Text copied to context area (indices: " ++ range_text s e ++ ")")%string.

(** The local [index_info] of the source is assigned and never read; it is
    left out. *)
Definition copy_to_context (self : TextEditor)
    (source_text selected_text : str) : outcome (str * context_data) :=
  let text_to_copy :=
    if truthy (strip selected_text) then selected_text else source_text in
  if negb (truthy (strip text_to_copy)) then
    {| editor := self; shown := Warning no_text_to_copy; value := ([], NoData) |}
  else
    let '(self, text_to_copy) :=
      if negb (eqb text_to_copy source_text) && truthy (strip text_to_copy) then
        let start_idx := find source_text text_to_copy in
        if negb (start_idx =? -1) then
          let end_idx := start_idx + len text_to_copy in
          (set_selection self start_idx end_idx, text_to_copy)
        else
          (set_selection self 0 (len source_text), source_text)
      else
        (set_selection self 0 (len source_text), source_text) in
    let words :=
      if truthy text_to_copy then Z.of_nat (List.length (split text_to_copy))
      else 0 in
    let chars := len text_to_copy in
    let selection_range :=
      range_text (selection_start self) (selection_end self) in
    {| editor := self;
       shown := Info (copied_info (selection_start self) (selection_end self));
       value := (text_to_copy, Stats words chars selection_range) |}.

Definition no_context_selected : string :=
  "No text selected in context area to replace."%string.
Definition no_modified_text : string :=
  "No modified text to apply."%string.
Definition invalid_indices : string :=
  "Invalid selection indices. Please select text again."%string.
Definition region_mismatch : string :=
  "Context text doesn't match selected region. Source text may have changed."%string.
Definition applied_info (s e : Z) : string :=
  ("Modified text applied successfully at indices " ++ range_text s e)%string.

(** [now] is the clock reading [update_text] takes when the splice is
    applied. *)
Definition apply_modified (self : TextEditor) (now : string)
    (source_text context_text modification_text : str) : outcome str :=
  if negb (truthy (strip context_text)) then
    {| editor := self; shown := Warning no_context_selected;
       value := source_text |}
  else if negb (truthy (strip modification_text)) then
    {| editor := self; shown := Warning no_modified_text;
       value := source_text |}
  else if (selection_start self <? 0) || (selection_end self <? 0)
          || (selection_start self >=? len source_text) then
    {| editor := self; shown := Warning invalid_indices;
       value := source_text |}
  else
    let start_idx := Z.max 0 (selection_start self) in
    let end_idx := Z.min (len source_text) (selection_end self) in
    let selected_region := sub source_text start_idx end_idx in
    if negb (eqb selected_region context_text) then
      {| editor := self; shown := Warning region_mismatch;
         value := source_text |}
    else
      let new_source :=
        upto source_text start_idx ++ modification_text
          ++ from source_text end_idx in
      let self :=
        {| document := update_text (document self) new_source now;
           selection_start := selection_start self;
           selection_end := selection_end self |} in
      let self := set_selection self 0 0 in
      {| editor := self;
         shown := Info (applied_info start_idx end_idx);
         value := new_source |}.

End Editor.

Import Doc Editor.

(** ** The rest of the document class *)

Module DocOps.

Import Doc.

(** [d.get(k)] *)
Fixpoint dict_get (k : string) (d : dict) : option string :=
  match d with
  | [] => None
  | (k', v) :: d' => if String.eqb k k' then Some v else dict_get k d'
  end.

(** [TextDocument.__init__(text, footnotes, metadata)]; an omitted argument
    is [None], and [now] is the clock reading the constructor takes. *)
Definition TextDocument_init (text : str) (footnotes : option (list str))
    (metadata : option dict) (now : string) : TextDocument :=
  let footnotes :=
    match footnotes with
    | Some (f :: fs) => f :: fs
    | _ => []
    end in
  let metadata :=
    match metadata with
    | Some (kv :: m) => kv :: m
    | _ => []
    end in
  let created_at :=
    match dict_get "created_at"%string metadata with
    | Some v => v
    | None => now
    end in
  {| text := text;
     footnotes := footnotes;
     metadata := dict_set "created_at"%string created_at metadata |}.

(** [TextDocument.update_footnotes] *)
Definition update_footnotes (d : TextDocument) (new_footnotes : list str)
    (now : string) : TextDocument :=
  {| text := text d;
     footnotes := new_footnotes;
     metadata := dict_set "last_modified"%string now (metadata d) |}.

(** [TextDocument.add_footnote]: the document after the call and the
    number returned. *)
Definition add_footnote (d : TextDocument) (footnote : str) (now : string)
  : TextDocument * Z :=
  let footnotes := footnotes d ++ [footnote] in
  ({| text := text d;
      footnotes := footnotes;
      metadata := dict_set "last_modified"%string now (metadata d) |},
   Z.of_nat (List.length footnotes)).

(** [TextDocument.get_word_count] *)
Definition doc_word_count (d : TextDocument) : Z :=
  if truthy (text d) then Z.of_nat (List.length (split (text d))) else 0.

End DocOps.

(** ** The rest of the editor: reset, statistics and the footnote table *)

Module EditorOps.

Import Doc DocOps Editor.

(** [TextEditor.get_word_count] *)
Definition get_word_count (text : str) : Z :=
  if truthy text then Z.of_nat (List.length (split text)) else 0.

(** Truthiness and [len] of a list. *)
Definition truthy_list {A} (l : list A) : bool :=
  match l with
  | [] => false
  | _ :: _ => true
  end.
Definition len_list {A} (l : list A) : Z := Z.of_nat (List.length l).

(** A row [[save, index, reference]] of the footnote table. *)
Definition footnote_row : Type := bool * Z * str.

(** [[[True, i, f] for i, f in enumerate(fs, start)]] *)
Fixpoint enumerate_rows (start : Z) (fs : list str) : list footnote_row :=
  match fs with
  | [] => []
  | f :: fs' => (true, start, f) :: enumerate_rows (start + 1) fs'
  end.

Definition no_footnotes : str := of_string "No footnotes available".

(** [TextEditor._format_footnotes] *)
Definition _format_footnotes (self : TextEditor) : list footnote_row :=
  if truthy_list (footnotes (document self))
     && (len_list (footnotes (document self)) >? 0)
  then enumerate_rows 1 (footnotes (document self))
  else [(false, 0, no_footnotes)].

(** The row [[0, 0, "0:0"]] both reset actions return. *)
Definition initial_context_data : context_data := Stats 0 0 "0:0"%string.

(** [TextEditor.new_document]; [now] is the clock reading taken by
    [TextDocument()]. *)
Definition new_document (self : TextEditor) (now : string)
  : outcome (str * str * str * list footnote_row * context_data) :=
  let self :=
    {| document := TextDocument_init [] None None now;
       selection_start := selection_start self;
       selection_end := selection_end self |} in
  let self := set_selection self 0 0 in
  {| editor := self;
     shown := Info "New document created"%string;
     value := ([], [], [], _format_footnotes self, initial_context_data) |}.

(** [TextEditor.clear_document] *)
Definition clear_document (self : TextEditor) (now : string)
  : outcome (str * str * str * context_data) :=
  let self :=
    {| document := TextDocument_init [] None None now;
       selection_start := selection_start self;
       selection_end := selection_end self |} in
  let self := set_selection self 0 0 in
  {| editor := self;
     shown := Info "All text areas cleared"%string;
     value := ([], [], [], initial_context_data) |}.

(** [s.count('\n')] *)
Definition count_newlines (s : str) : Z :=
  Z.of_nat (List.length (filter (fun c => (c =? 10)%N) s)).

(** The closure [update_counts] of [create_interface], which recomputes the
    three statistics tables whenever one of the text areas changes. *)
Definition update_counts (editor : TextEditor) (source context modification : str)
  : (Z * Z * Z) * context_data * (Z * Z * Z) :=
  let source_words := get_word_count source in
  let source_chars := if truthy source then len source else 0 in
  let source_lines := if truthy source then count_newlines source + 1 else 0 in
  let context_words := get_word_count context in
  let context_chars := if truthy context then len context else 0 in
  let selection_range :=
    if negb (selection_start editor =? 0) || negb (selection_end editor =? 0)
    then range_text (selection_start editor) (selection_end editor)
    else "0:0"%string in
  let modification_words := get_word_count modification in
  let modification_chars := if truthy modification then len modification else 0 in
  let modification_lines :=
    if truthy modification then count_newlines modification + 1 else 0 in
  ((source_words, source_chars, source_lines),
   Stats context_words context_chars selection_range,
   (modification_words, modification_chars, modification_lines)).

End EditorOps.

Import DocOps EditorOps.

(** ** More string operations *)

Module PyStrMore.

(** [p in s] *)
Fixpoint contains (s p : str) : bool :=
  startswith s p
  || match s with
     | [] => false
     | _ :: s' => contains s' p
     end.

(** [s.split(sep)] for a non-empty separator, as in every call of the
    source: [cur] is the piece being read, in reverse, and [skip] counts the
    characters of a matched separator still to pass over. *)
Fixpoint split_on_acc (sep s cur : str) (skip : nat) : list str :=
  match s with
  | [] => [rev cur]
  | c :: s' =>
      match skip with
      | S k => split_on_acc sep s' cur k
      | O =>
          if startswith s sep
          then rev cur :: split_on_acc sep s' [] (List.length sep - 1)
          else split_on_acc sep s' (c :: cur) 0
      end
  end.

Definition split_on (s sep : str) : list str := split_on_acc sep s [] 0.

(** [s.replace(old, new)] for a non-empty [old], as in every call of the
    source. *)
Fixpoint replace_acc (old new s : str) (skip : nat) : str :=
  match s with
  | [] => []
  | c :: s' =>
      match skip with
      | S k => replace_acc old new s' k
      | O =>
          if startswith s old
          then new ++ replace_acc old new s' (List.length old - 1)
          else c :: replace_acc old new s' 0
      end
  end.

Definition replace (s old new : str) : str := replace_acc old new s 0.

(** [sep.join(parts)] *)
Fixpoint join (sep : str) (parts : list str) : str :=
  match parts with
  | [] => []
  | [p] => p
  | p :: ps => p ++ sep ++ join sep ps
  end.

(** [l[i]] for [i >= 0]; [None] is the [IndexError]. *)
Definition index {A} (l : list A) (i : nat) : option A := nth_error l i.

End PyStrMore.

Import PyStrMore.

(** ** Loading and saving (src/app.py) *)

Module Files.

Import Doc DocOps Editor EditorOps.

(** Notifications whose text quotes a user string. *)
Inductive note :=
| Warn (msg : str)
| Inform (msg : str).

(** The editor after a call, the notification it showed and what it
    returned. *)
Record result (A : Type) := {
  after : TextEditor;
  note_shown : note;
  returned : A
}.
Arguments after {A} _.
Arguments note_shown {A} _.
Arguments returned {A} _.

(** Assignment to [self.document]. *)
Definition set_document (self : TextEditor) (d : TextDocument) : TextEditor :=
  {| document := d; selection_start := selection_start self;
     selection_end := selection_end self |}.

(** The name looked up for a drop-down entry. *)
Definition filename_of (display_name : str) : option str :=
  if contains display_name (of_string " (")
  then index (split_on display_name (of_string " (")) 0
  else Some display_name.

(** [TextEditor.load_document_to_preparation]; [load_document] is
    [StorageManager.load_document] over the current store, and [None] is an
    exception raised by the call. *)
Definition load_document_to_preparation
    (load_document : str -> option TextDocument)
    (self : TextEditor) (display_name : str)
  : option (result (str * list footnote_row)) :=
  if negb (truthy display_name) then
    Some {| after := self;
            note_shown := Warn (of_string "Please select a file");
            returned := ([], _format_footnotes self) |}
  else
    match filename_of display_name with
    | None => None
    | Some filename =>
        match load_document filename with
        | Some doc =>
            let self := set_document self doc in
            Some {| after := self;
                    note_shown :=
                      Inform (of_string "Successfully loaded '" ++ filename
                                ++ of_string "' to preparation panel");
                    returned := (text doc, _format_footnotes self) |}
        | None =>
            Some {| after := self;
                    note_shown :=
                      Warn (of_string "Document '" ++ filename
                              ++ of_string "' not found");
                    returned := ([], _format_footnotes self) |}
        end
    end.

(** The arguments of one [StorageManager.save_document] call. *)
Record save_call := {
  saved_document : TextDocument;
  saved_title : str;
  saved_summary : str;
  saved_keywords : list str
}.

(** [TextEditor.save_preparation_document].  [footnotes_data] is the
    footnote table as the page holds it ([None] when it is not passed),
    [now] and [now'] are the clock readings of [update_text] and of the
    [TextDocument] constructor, and [save_document] is the answer of the
    store.  The call returns nothing; the result records the store call it
    made, if any. *)
Definition save_preparation_document
    (save_document : save_call -> bool)
    (self : TextEditor) (now now' : string)
    (filename source_text : str) (footnotes_data : option (list footnote_row))
  : result (option save_call) :=
  if negb (truthy (strip filename)) then
    {| after := self;
       note_shown := Warn (of_string "Please enter a filename");
       returned := None |}
  else if negb (truthy (strip source_text)) then
    {| after := self;
       note_shown :=
         Warn (of_string
                 "Cannot save empty document. Please add some content first.");
       returned := None |}
  else
    let self := set_document self (update_text (document self) source_text now) in
    let doc_to_save :=
      TextDocument_init source_text
        (Some (footnotes (document self)))
        (Some (metadata (document self))) now' in
    let doc_to_save :=
      match footnotes_data with
      | Some (row :: rows) =>
          let selected_rows :=
            filter (fun r => fst (fst r)) (row :: rows) in
          let selected_footnotes := map snd selected_rows in
          {| text := text doc_to_save;
             footnotes := selected_footnotes;
             metadata := metadata doc_to_save |}
      | _ => doc_to_save
      end in
    let summary :=
      of_string "Document created with TechEU Editor - "
        ++ upto source_text 100 ++ of_string "..." in
    let keywords :=
      [of_string "aouxai"; of_string "editor"; of_string "document"] in
    let call :=
      {| saved_document := doc_to_save; saved_title := filename;
         saved_summary := summary; saved_keywords := keywords |} in
    if save_document call then
      {| after := self;
         note_shown :=
           Inform (of_string "Successfully saved '" ++ filename
                     ++ of_string "' to Weaviate");
         returned := Some call |}
    else
      {| after := self;
         note_shown := Warn (of_string "Failed to save document to Weaviate");
         returned := Some call |}.

End Files.

Import Files.

(** ** Exceptions *)

Module Py.

Inductive exn := IndexError | ValueError | TypeError.

(** A call either returns a value or raises. *)
Inductive py (A : Type) :=
| Ret (a : A)
| Raise (e : exn).
Arguments Ret {A} _.
Arguments Raise {A} _.

Definition bind {A B} (m : py A) (f : A -> py B) : py B :=
  match m with
  | Ret a => f a
  | Raise e => Raise e
  end.

End Py.

Import Py.

Notation "x <- m ;; k" := (bind m (fun x => k))
  (at level 61, m at next level, right associativity).

(** ** The research agent's parser
    (src/tech_europe_hackathon/agents/preparation_agent.py) *)

Module Preparation.

Section Parser.

(** [str.isdigit] and [int] on a string that passed [isdigit], both decided
    by the Unicode tables of the runtime; [None] is the [ValueError] of
    [int]. *)
Variable isdigit : str -> bool.
Variable to_int : str -> option Z.

(** [current_section]: [None], ["article"] or ["citations"]. *)
Inductive section_name := NoSection | ArticleSection | CitationsSection.

Definition is_article (s : section_name) : bool :=
  match s with ArticleSection => true | _ => false end.
Definition is_citations (s : section_name) : bool :=
  match s with CitationsSection => true | _ => false end.

(** The locals of the first loop. *)
Record parse_state := {
  article : str;
  citations : list str;
  word_count : Z;
  current_section : section_name
}.

Definition ARTICLE : str := of_string "ARTICLE:".
Definition CITATIONS : str := of_string "CITATIONS:".
Definition WORD_COUNT : str := of_string "WORD_COUNT:".
Definition bracket : str := of_string "[".
Definition newline : str := [10%N].

(** One iteration of the first loop. *)
Definition parse_line (st : parse_state) (line : str) : py parse_state :=
  let line := strip line in
  if startswith line ARTICLE then
    Ret {| article := strip (replace line ARTICLE []);
           citations := citations st;
           word_count := word_count st;
           current_section := ArticleSection |}
  else if startswith line CITATIONS then
    Ret {| article := article st;
           citations := citations st;
           word_count := word_count st;
           current_section := CitationsSection |}
  else if startswith line WORD_COUNT then
    let word_count_str := strip (replace line WORD_COUNT []) in
    if isdigit word_count_str then
      match to_int word_count_str with
      | Some n =>
          Ret {| article := article st;
                 citations := citations st;
                 word_count := n;
                 current_section := current_section st |}
      | None => Raise ValueError
      end
    else
      Ret {| article := article st;
             citations := citations st;
             word_count := 0;
             current_section := current_section st |}
  else if is_article (current_section st) && truthy line then
    Ret {| article := article st ++ of_string " " ++ line;
           citations := citations st;
           word_count := word_count st;
           current_section := current_section st |}
  else if is_citations (current_section st) && startswith line bracket then
    Ret {| article := article st;
           citations := citations st ++ [line];
           word_count := word_count st;
           current_section := current_section st |}
  else Ret st.

Fixpoint parse_lines (lines : list str) (st : parse_state) : py parse_state :=
  match lines with
  | [] => Ret st
  | line :: rest => st' <- parse_line st line ;; parse_lines rest st'
  end.

(** The loop of the fallback that gathers the article lines, up to the first
    marker line. *)
Fixpoint collect_article (lines : list str) (article_lines : list str)
  : list str :=
  match lines with
  | [] => article_lines
  | line :: rest =>
      let line := strip line in
      if startswith line WORD_COUNT || startswith line CITATIONS
      then article_lines
      else if truthy line || truthy_list article_lines
           then collect_article rest (article_lines ++ [line])
           else collect_article rest article_lines
  end.

(** The loop of the fallback that gathers the citations. *)
Fixpoint collect_citations (lines : list str) (citation_section : bool)
    (citations : list str) : list str :=
  match lines with
  | [] => citations
  | line :: rest =>
      let line := strip line in
      if startswith line CITATIONS
      then collect_citations rest true citations
      else if citation_section && startswith line bracket
           then collect_citations rest citation_section (citations ++ [line])
           else collect_citations rest citation_section citations
  end.

Definition default_citations : list str :=
  [of_string "[1] Generated by AI - https://openai.com";
   of_string "[2] Research content - https://example.com"].

(** [TextPreparationAgent._validate_citations] *)
Definition _validate_citations (citations : list str) : list str := citations.

(** The dictionary [_parse_result] returns, by key. *)
Record parsed := {
  r_text : str;
  r_footnotes : list str;
  r_word_count : Z;
  r_validation_status : str;
  r_topic : str
}.

(** [TextPreparationAgent._parse_result] on a string. *)
Definition _parse_result (result topic : str) : py parsed :=
  let lines := split_on result newline in
  st <- parse_lines lines
          {| article := []; citations := []; word_count := 0;
             current_section := NoSection |} ;;
  let '(article, citations, word_count) :=
    if negb (truthy (strip (article st))) && truthy (strip result) then
      let content_lines := split_on result newline in
      let article_lines := collect_article content_lines [] in
      let article := strip (join newline article_lines) in
      let citations := collect_citations content_lines false (citations st) in
      let citations :=
        if negb (truthy_list citations) then default_citations
        else citations in
      let word_count :=
        if truthy article then len_list (split article) else 0 in
      (article, citations, word_count)
    else (article st, citations st, word_count st) in
  let validated_citations := _validate_citations citations in
  Ret {| r_text := strip article;
         r_footnotes := validated_citations;
         r_word_count :=
           if negb (word_count =? 0) then word_count
           else len_list (split article);
         r_validation_status := of_string "VALID";
         r_topic := topic |}.

End Parser.

End Preparation.

Import Preparation.

(** A well-formed citation: a stripped line that opens with a bracket. *)
Definition citation (f : str) : Prop :=
  startswith f bracket = true /\ strip f = f.

(** Stand-ins for the two runtime functions on ASCII digit strings, for
    running the parser on concrete inputs. *)
Definition isdigit_ascii (s : str) : bool :=
  truthy s && forallb (fun c => (48 <=? c)%N && (c <=? 57)%N) s.

Definition to_int_ascii (s : str) : option Z :=
  Some (fold_left (fun acc c => 10 * acc + (Z.of_N c - 48)) s 0).

Definition sample_output : str :=
  of_string "ARTICLE: Rust is fast [1].
It is safe [2].

WORD_COUNT: 7

CITATIONS:
[1] Rust book - https://doc.rust-lang.org
[2] Blog - https://example.com".

Definition sample_unstructured : str :=
  of_string "Rust is fast.
CITATIONS:
[1] Rust book - https://doc.rust-lang.org".

(** ** Generation, modification and the prompt box *)

Module Pipeline.

Import Doc DocOps Editor EditorOps Files.

(** The editor after a call, the notifications shown in order, and the
    value returned.  A call that raises leaves no such record: what it
    showed before raising is not kept. *)
Record run (A : Type) := {
  ed : TextEditor;
  notes : list note;
  out : A
}.
Arguments ed {A} _.
Arguments notes {A} _.
Arguments out {A} _.

(** The dictionary [scrape_and_summarize] returns, by key. *)
Record scrape_result := {
  s_url : str;
  s_title : str;
  s_summary : str;
  s_success : bool;
  s_method : str;
  s_summary_word_count : Z
}.

(** The value of the prompt box: [{"text": ..., "files": [...]}]. *)
Record multimodal := {
  mm_text : str;
  mm_files : list str
}.

Definition empty_multimodal : multimodal := {| mm_text := []; mm_files := [] |}.

(** The five values [execute_action] returns. *)
Definition action_result : Type :=
  str * str * str * list footnote_row * option multimodal.

(** [CONFIG.MAX_SCRAPING_WORDS] and [CONFIG.SUPPORTED_AUDIO_FORMATS]
    (src/tech_europe_hackathon/utils/config.py) *)
Definition MAX_SCRAPING_WORDS : Z := 150.
Definition SUPPORTED_AUDIO_FORMATS : list str :=
  [of_string ".wav"; of_string ".mp3"; of_string ".m4a"; of_string ".flac";
   of_string ".ogg"].

(** [x in l] for a list of strings. *)
Definition member (x : str) (l : list str) : bool := existsb (eqb x) l.

Section Collaborators.

(** The runtime's [str.isdigit] and [int]. *)
Variable isdigit : str -> bool.
Variable to_int : str -> option Z.

(** What the hosted models answer: [str(crew.kickoff())] of the scraping
    task, by URL and word target; of the research task, by topic and, when
    the prompt carries scraped context, that context and the source URL; of
    the modification tasks, by source text, sub-text and instruction. *)
Variable scrape_kickoff : str -> Z -> str.
Variable research_kickoff : str -> option (str * str) -> str.
Variable modify_kickoff : str -> str -> str -> str.

(** The file system and the transcription service:
    [Path(p).suffix.lower()], [Path(p).exists()], the configured API key and
    the transcript of a file. *)
Variable suffix_lower : str -> str.
Variable file_exists : str -> bool.
Variable ELEVENLABS_API_KEY : option str.
Variable convert : str -> str.

(** [URLScrapingAgent.scrape_and_summarize] *)
Definition scrape_and_summarize (url : str) (target_words : option Z)
  : py scrape_result :=
  let target_words :=
    match target_words with
    | None => Z.min MAX_SCRAPING_WORDS 150
    | Some t => t
    end in
  let summary := scrape_kickoff url target_words in
  host <- (if contains url (of_string "/")
           then match index (split_on url (of_string "/")) 2 with
                | Some h => Ret h
                | None => Raise IndexError
                end
           else Ret url) ;;
  Ret {| s_url := url;
         s_title := of_string "Content from " ++ host;
         s_summary := strip summary;
         s_success := true;
         s_method := of_string "aci_tools";
         s_summary_word_count := len_list (split summary) |}.

(** [TextPreparationAgent.generate_text]; [None] is the omitted
    [source_url]. *)
Definition generate_text (topic : str) (source_url : option str) : py parsed :=
  url_content <-
    match source_url with
    | Some u =>
        if truthy u && truthy (strip u) then
          scraped <- scrape_and_summarize (strip u) (Some 100) ;;
          if s_success scraped then Ret (Some (s_summary scraped))
          else Ret None
        else Ret None
    | None => Ret None
    end ;;
  let result :=
    match url_content, source_url with
    | Some c, Some u =>
        if truthy c then research_kickoff topic (Some (c, u))
        else research_kickoff topic None
    | _, _ => research_kickoff topic None
    end in
  _parse_result isdigit to_int result topic.

(** [TextModificationAgent.modify_text] *)
Definition modify_text (source_text sub_text_query modification_prompt : str)
  : str :=
  strip (modify_kickoff source_text sub_text_query modification_prompt).

(** [AudioProcessor.process_audio_file]; [None] is the returned [None]. *)
Definition process_audio_file (file_path : str) : py (option str) :=
  if negb (file_exists file_path)
     || negb (member (suffix_lower file_path) SUPPORTED_AUDIO_FORMATS)
  then Ret None
  else
    match ELEVENLABS_API_KEY with
    | Some (_ :: _) => Ret (Some (convert file_path))
    | _ => Raise ValueError
    end.

(** The loop of [_extract_prompt_from_multimodal] over the files. *)
Fixpoint transcribe_files (files : list str) (transcribed_text : str)
  : py str :=
  match files with
  | [] => Ret transcribed_text
  | file_path :: rest =>
      if truthy file_path
         && member (suffix_lower file_path) SUPPORTED_AUDIO_FORMATS
      then
        transcription <- process_audio_file file_path ;;
        match transcription with
        | Some (c :: t) =>
            transcribe_files rest
              (if truthy transcribed_text
               then transcribed_text ++ of_string " " ++ strip (c :: t)
               else strip (c :: t))
        | _ => transcribe_files rest transcribed_text
        end
      else transcribe_files rest transcribed_text
  end.

(** [TextEditor._extract_prompt_from_multimodal] on a dictionary. *)
Definition _extract_prompt_from_multimodal (multimodal_input : multimodal)
  : py str :=
  let text_prompt := mm_text multimodal_input in
  let files := mm_files multimodal_input in
  transcribed_text <-
    (if truthy_list files then transcribe_files files [] else Ret []) ;;
  Ret (strip (transcribed_text ++ of_string " " ++ text_prompt)).

(** [TextEditor._generate_text]; [None] is the omitted [url], and [now] is
    the clock reading of [update_footnotes]. *)
Definition _generate_text (self : TextEditor) (now : string)
    (topic : str) (url : option str)
  : py (run (str * str * list footnote_row)) :=
  let url := match url with Some u => u | None => [] end in
  shown_and_result <-
    (if truthy (strip url) then
       r <- generate_text topic (Some (strip url)) ;;
       Ret ([Inform (of_string "Processing with URL: " ++ url)], r)
     else
       r <- generate_text topic None ;;
       Ret ([], r)) ;;
  let '(notes, result) := shown_and_result in
  let generated_text := r_text result in
  let self :=
    set_document self
      (update_footnotes (document self) (r_footnotes result) now) in
  Ret {| ed := self; notes := notes;
         out := (generated_text, text (document self),
                 _format_footnotes self) |}.

(** [TextEditor._modify_text] *)
Definition _modify_text (self : TextEditor)
    (selected_text prompt document_text : str)
  : str * list footnote_row :=
  if negb (truthy (strip selected_text)) then
    (document_text, _format_footnotes self)
  else
    let modified_text := modify_text document_text selected_text prompt in
    (modified_text, _format_footnotes self).

(** [TextEditor.generate_from_url] *)
Definition generate_from_url (self : TextEditor) (now : string) (url : str)
  : py (run (str * list footnote_row * list str)) :=
  if negb (truthy (strip url)) then
    Ret {| ed := self;
           notes := [Warn (of_string "Please enter a URL")];
           out := ([], _format_footnotes self, []) |}
  else
    let default_prompt :=
      of_string
        "Generate comprehensive content based on the information from this URL"
    in
    g <- _generate_text self now default_prompt (Some (strip url)) ;;
    let '(generated_text, _, fnotes) := out g in
    let word_count :=
      if truthy generated_text then len_list (split generated_text) else 0 in
    let footnote_count := len_list (footnotes (document (ed g))) in
    Ret {| ed := ed g;
           notes :=
             notes g
             ++ [Inform (of_string "Generated "
                           ++ of_string (format_int word_count)
                           ++ of_string " words with "
                           ++ of_string (format_int footnote_count)
                           ++ of_string " citations from URL")];
           out := (generated_text, fnotes, []) |}.

(** [TextEditor.execute_action].  [multimodal_input] is [None] for an
    empty value of the prompt box; [url_input] is [None] when omitted.  The
    value is [None] when the call runs off its end and so returns
    [None]. *)
Definition execute_action (self : TextEditor) (now : string)
    (multimodal_input : option multimodal)
    (source_text context_text modification_text selected_panel : str)
    (url_input : option str)
  : py (run (option action_result)) :=
  let url_input := match url_input with Some u => u | None => [] end in
  match multimodal_input with
  | None =>
      Ret {| ed := self;
             notes := [Warn (of_string "Please provide input")];
             out := Some (source_text, context_text, modification_text,
                          _format_footnotes self, multimodal_input) |}
  | Some mm =>
      final_prompt <- _extract_prompt_from_multimodal mm ;;
      if negb (truthy final_prompt) then
        Ret {| ed := self;
               notes :=
                 [Warn (of_string
                          "Please provide a text prompt or upload an audio file")];
               out := Some (source_text, context_text, modification_text,
                            _format_footnotes self, Some empty_multimodal) |}
      else
        let processing :=
          Inform (of_string "Processing: " ++ upto final_prompt 80
                    ++ of_string "...") in
        if eqb selected_panel (of_string "preparation") then
          g <- _generate_text self now final_prompt (Some (strip url_input)) ;;
          let '(gen_text, _, fnotes) := out g in
          Ret {| ed := ed g;
                 notes := processing :: notes g;
                 out := Some (gen_text, context_text, modification_text,
                              fnotes, Some empty_multimodal) |}
        else if eqb selected_panel (of_string "modification") then
          if truthy (strip context_text) || truthy (strip modification_text)
          then
            let text_to_modify :=
              if truthy context_text then context_text
              else modification_text in
            if truthy (strip text_to_modify) then
              let '(mod_text, fnotes) :=
                _modify_text self text_to_modify final_prompt source_text in
              Ret {| ed := self;
                     notes := [processing];
                     out := Some (source_text, context_text, mod_text, fnotes,
                                  Some empty_multimodal) |}
            else
              Ret {| ed := self;
                     notes :=
                       [processing;
                        Warn (of_string
                                "No text available to modify in modification mode.")];
                     out := Some (source_text, context_text, modification_text,
                                  _format_footnotes self,
                                  Some empty_multimodal) |}
          else
            Ret {| ed := self; notes := [processing]; out := None |}
        else
          Ret {| ed := self;
                 notes := [processing];
                 out := Some (source_text, context_text, modification_text,
                              _format_footnotes self, Some empty_multimodal) |}
  end.

(** The closure [handle_execute_action] of [create_interface], which
    unpacks the five values of [execute_action]. *)
Definition handle_execute_action (editor : TextEditor) (now : string)
    (multimodal_input : option multimodal)
    (source context modification panel url : str)
  : py (run action_result) :=
  match multimodal_input with
  | None =>
      Ret {| ed := editor; notes := [];
             out := (source, context, modification, _format_footnotes editor,
                     Some empty_multimodal) |}
  | Some _ =>
      r <- execute_action editor now multimodal_input source context
             modification panel (Some url) ;;
      match out r with
      | Some v => Ret {| ed := ed r; notes := notes r; out := v |}
      | None => Raise TypeError
      end
  end.

End Collaborators.

End Pipeline.

Import Pipeline.

(** Stand-ins for the collaborators, for running the pipeline on concrete
    inputs. *)
Definition scrape_stub : str -> Z -> str :=
  fun _ _ => of_string " Rust is a systems language. ".
Definition research_stub : str -> option (str * str) -> str :=
  fun _ _ => sample_output.
Definition modify_stub : str -> str -> str -> str :=
  fun _ _ _ => of_string " slow red ".
Definition suffix_stub : str -> str := fun p => from p (len p - 4).
Definition exists_stub : str -> bool := fun _ => true.
Definition convert_stub : str -> str := fun _ => of_string "make it shorter".

(** ** Histories of document edits *)

Inductive edit :=
| UpdateText (new_text : str) (now : string)
| UpdateFootnotes (new_footnotes : list str) (now : string)
| AddFootnote (footnote : str) (now : string).

Definition apply_edit (d : TextDocument) (e : edit) : TextDocument :=
  match e with
  | UpdateText t now => update_text d t now
  | UpdateFootnotes fs now => update_footnotes d fs now
  | AddFootnote f now => fst (add_footnote d f now)
  end.

Definition edit_clock (e : edit) : string :=
  match e with
  | UpdateText _ now | UpdateFootnotes _ now | AddFootnote _ now => now
  end.

(** The document after a sequence of edits, oldest first. *)
Definition apply_edits (d : TextDocument) (es : list edit) : TextDocument :=
  fold_left apply_edit es d.

(** A word: a non-empty string without whitespace. *)
Definition clean (w : str) : Prop :=
  w <> [] /\ forallb (fun c => negb (is_space c)) w = true.

(** ** Runs of the source on concrete inputs *)

Definition doc0 : TextDocument :=
  {| text := []; footnotes := [];
     metadata := [("created_at"%string, "2024-01-01T00:00:00Z"%string)] |}.

Definition editor0 : TextEditor :=
  {| document := doc0; selection_start := 0; selection_end := 0 |}.

Definition clock1 : string := "2024-01-01T00:05:00Z"%string.
Definition clock2 : string := "2024-01-01T00:06:00Z"%string.

Definition fox : str := of_string "The quick brown fox".
Definition quick_brown : str := of_string "quick brown".
Definition slow_red : str := of_string "slow red".

(** An editor whose stored offsets are [(s, e)]. *)
Definition editor_at (s e : Z) : TextEditor := set_selection editor0 s e.

(** Closes a side condition on concrete inputs by evaluation. *)
Ltac side := first [ reflexivity | lia | (vm_compute; congruence) ].

Example parse_sample :
  _parse_result isdigit_ascii to_int_ascii sample_output (of_string "rust")
  = Ret {| r_text := of_string "Rust is fast [1]. It is safe [2].";
           r_footnotes :=
             [of_string "[1] Rust book - https://doc.rust-lang.org";
              of_string "[2] Blog - https://example.com"];
           r_word_count := 7;
           r_validation_status := of_string "VALID";
           r_topic := of_string "rust" |}.
Proof. reflexivity. Qed.

Example parse_unstructured :
  _parse_result isdigit_ascii to_int_ascii sample_unstructured (of_string "rust")
  = Ret {| r_text := of_string "Rust is fast.";
           r_footnotes :=
             [of_string "[1] Rust book - https://doc.rust-lang.org";
              of_string "[1] Rust book - https://doc.rust-lang.org"];
           r_word_count := 3;
           r_validation_status := of_string "VALID";
           r_topic := of_string "rust" |}.
Proof. reflexivity. Qed.

Example strip_ex :
  strip (of_string "  a b ") = of_string "a b".
Proof. reflexivity. Qed.

Example find_ex :
  find (of_string "The quick brown fox") (of_string "quick brown") = 4
  /\ find (of_string "abc") (of_string "x") = -1
  /\ find (of_string "abc") [] = 0.
Proof. repeat split; reflexivity. Qed.

Example slice_ex :
  sub (of_string "hello") 1 3 = of_string "el"
  /\ sub (of_string "hello") 3 1 = []
  /\ sub (of_string "hello") (-2) 99 = of_string "lo"
  /\ upto (of_string "hello") 2 ++ from (of_string "hello") 2 = of_string "hello".
Proof. repeat split; reflexivity. Qed.

Example split_ex :
  split (of_string " ab  c ") = [of_string "ab"; of_string "c"].
Proof. reflexivity. Qed.

Example format_int_ex :
  format_int 0 = "0"%string /\ format_int 15 = "15"%string
  /\ format_int (-3) = "-3"%string.
Proof. repeat split; reflexivity. Qed.

Example capture_fox :
  let r := copy_to_context editor0 (of_string "The quick brown fox")
             (of_string "quick brown") in
  selection_start (editor r) = 4 /\ selection_end (editor r) = 15
  /\ value r = (of_string "quick brown", Stats 2 11 "4:15"%string)
  /\ shown r = Info "Text copied to context area (indices: 4:15)"%string.
Proof. repeat split; reflexivity. Qed.

Example splice_fox :
  let c := copy_to_context editor0 (of_string "The quick brown fox")
             (of_string "quick brown") in
  let r := apply_modified (editor c) clock1 (of_string "The quick brown fox")
             (fst (value c)) (of_string "slow red") in
  value r = of_string "The slow red fox"
  /\ text (document (editor r)) = of_string "The slow red fox"
  /\ shown r = Info "Modified text applied successfully at indices 4:15"%string.
Proof. repeat split; reflexivity. Qed.

Example capture_hello_empty :
  let c := copy_to_context editor0 (of_string "Hello world") [] in
  selection_start (editor c) = 0 /\ selection_end (editor c) = 11
  /\ value (apply_modified (editor c) clock1 (of_string "Hello world")
              (fst (value c)) (of_string "Hi there")) = of_string "Hi there".
Proof. repeat split; reflexivity. Qed.

(** ** Facts about the string operations *)

Section StringFacts.

Implicit Types s t p pre post : str.

Lemma len_nonneg s : 0 <= len s.
Proof. unfold len; lia. Qed.

Lemma len_app s t : len (s ++ t) = len s + len t.
Proof. unfold len; rewrite length_app; lia. Qed.

Lemma len_cons c s : len (c :: s) = 1 + len s.
Proof. unfold len; simpl List.length; lia. Qed.

Lemma len_nil_inv s : len s = 0 -> s = [].
Proof. destruct s; [reflexivity | rewrite len_cons; pose proof (len_nonneg s); lia]. Qed.

Lemma eqb_eq s t : eqb s t = true <-> s = t.
Proof.
  revert t; induction s as [|c s IH]; intros [|d t]; simpl;
    try (split; [discriminate | congruence]); try tauto.
  rewrite andb_true_iff, N.eqb_eq, IH.
  split; [intros [-> ->]; reflexivity | intros [= -> ->]; auto].
Qed.

Lemma eqb_neq s t : eqb s t = false <-> s <> t.
Proof.
  rewrite <- eqb_eq. destruct (eqb s t); split; congruence.
Qed.

(** *** Whitespace-only strings and [strip] *)

Lemma lstrip_nil_iff s : lstrip s = [] <-> blank s = true.
Proof.
  induction s as [|c s IH]; simpl; [tauto|].
  destruct (is_space c); simpl; [exact IH | split; discriminate].
Qed.

Lemma lstrip_head s c t : lstrip s = c :: t -> is_space c = false.
Proof.
  induction s as [|d s IH]; simpl; [discriminate|].
  destruct (is_space d) eqn:E; [exact IH | intros [= <- _]; exact E].
Qed.

Lemma blank_app s t : blank (s ++ t) = blank s && blank t.
Proof. apply forallb_app. Qed.

Lemma truthy_false_iff s : truthy s = false <-> s = [].
Proof. destruct s; simpl; split; congruence. Qed.

(** [s.strip()] is falsy exactly when [s] is blank. *)
Lemma truthy_strip s : truthy (strip s) = negb (blank s).
Proof.
  unfold strip, rstrip.
  destruct (blank s) eqn:B; simpl.
  - apply lstrip_nil_iff in B. rewrite B. reflexivity.
  - destruct (lstrip s) as [|c u] eqn:L.
    + apply lstrip_nil_iff in L. congruence.
    + apply lstrip_head in L.
      destruct (lstrip (rev (c :: u))) as [|d v] eqn:R.
      * apply lstrip_nil_iff in R. simpl in R.
        rewrite blank_app in R. simpl in R. rewrite L in R.
        rewrite andb_false_r in R. discriminate.
      * simpl. destruct (rev v ++ [d]) eqn:Q; [|reflexivity].
        destruct (rev v); discriminate.
Qed.

Lemma not_blank_nonempty s : blank s = false -> 1 <= len s.
Proof.
  destruct s; [discriminate|]. intros _. rewrite len_cons.
  pose proof (len_nonneg s). lia.
Qed.

(** *** Slices with bounds inside the string *)

Lemma adjust_inside n i : 0 <= i <= n -> adjust n i = i.
Proof. intros H. unfold adjust. destruct (i <? 0) eqn:E; lia. Qed.

Lemma sub_inside s a b :
  0 <= a -> a <= len s -> 0 <= b -> b <= len s ->
  sub s a b = firstn (Z.to_nat (b - a)) (skipn (Z.to_nat a) s).
Proof.
  intros. unfold sub, slice. rewrite !adjust_inside by lia. reflexivity.
Qed.

Lemma upto_inside s a :
  0 <= a <= len s -> upto s a = firstn (Z.to_nat a) s.
Proof.
  intros. unfold upto, slice. rewrite adjust_inside by lia.
  simpl skipn. rewrite Z.sub_0_r. reflexivity.
Qed.

Lemma from_inside s b :
  0 <= b <= len s -> from s b = skipn (Z.to_nat b) s.
Proof.
  intros. unfold from, slice. rewrite adjust_inside by lia.
  apply firstn_all2. rewrite length_skipn. unfold len in *. lia.
Qed.

Lemma sub_whole s : sub s 0 (len s) = s.
Proof.
  pose proof (len_nonneg s).
  rewrite sub_inside by lia. simpl skipn.
  apply firstn_all2. unfold len. lia.
Qed.

(** A string is its prefix, the selected region and its suffix. *)
Lemma slice_decompose s a b :
  0 <= a -> a <= b -> b <= len s ->
  upto s a ++ sub s a b ++ from s b = s.
Proof.
  intros. rewrite upto_inside, sub_inside, from_inside by lia.
  rewrite <- (firstn_skipn (Z.to_nat a) s) at 4.
  f_equal.
  rewrite <- (firstn_skipn (Z.to_nat (b - a)) (skipn (Z.to_nat a) s)) at 2.
  f_equal. rewrite skipn_skipn. f_equal. lia.
Qed.

Lemma sub_middle pre p post :
  sub (pre ++ p ++ post) (len pre) (len pre + len p) = p.
Proof.
  pose proof (len_nonneg pre). pose proof (len_nonneg p).
  pose proof (len_nonneg post).
  rewrite sub_inside by (rewrite ?len_app; lia).
  replace (Z.to_nat (len pre)) with (List.length pre) by (unfold len; lia).
  replace (Z.to_nat (len pre + len p - len pre)) with (List.length p)
    by (unfold len; lia).
  rewrite skipn_app, skipn_all, Nat.sub_diag. simpl.
  rewrite firstn_app, firstn_all, Nat.sub_diag. simpl. apply app_nil_r.
Qed.

Lemma upto_middle pre t : upto (pre ++ t) (len pre) = pre.
Proof.
  pose proof (len_nonneg pre). pose proof (len_nonneg t).
  rewrite upto_inside by (rewrite len_app; lia).
  replace (Z.to_nat (len pre)) with (List.length pre) by (unfold len; lia).
  rewrite firstn_app, firstn_all, Nat.sub_diag. simpl. apply app_nil_r.
Qed.

Lemma from_middle pre t : from (pre ++ t) (len pre) = t.
Proof.
  pose proof (len_nonneg pre). pose proof (len_nonneg t).
  rewrite from_inside by (rewrite len_app; lia).
  replace (Z.to_nat (len pre)) with (List.length pre) by (unfold len; lia).
  rewrite skipn_app, skipn_all, Nat.sub_diag. reflexivity.
Qed.

(** *** [find] returns the first occurrence *)

Lemma startswith_iff s p : startswith s p = true <-> exists t, s = p ++ t.
Proof.
  revert s; induction p as [|c p IH]; intros s.
  - split; [intros _; exists s; reflexivity | destruct s; reflexivity].
  - destruct s as [|d s]; simpl.
    + split; [discriminate | intros [t [=]]].
    + rewrite andb_true_iff, N.eqb_eq, IH. split.
      * intros [-> [t ->]]. exists t. reflexivity.
      * intros [t [= -> ->]]. split; [reflexivity | exists t; reflexivity].
Qed.

Lemma find_at_eq s p i :
  find_at s p i =
    if startswith s p then i
    else match s with
         | [] => -1
         | _ :: s' => find_at s' p (i + 1)
         end.
Proof. destruct s; reflexivity. Qed.

Lemma find_at_found s p : forall i j,
  0 <= i -> find_at s p i = j -> j <> -1 ->
  exists pre post, s = pre ++ p ++ post /\ j = i + len pre.
Proof.
  induction s as [|c s IH]; intros i j Hi; rewrite find_at_eq.
  - destruct (startswith [] p) eqn:E; [|congruence].
    intros <- _. apply startswith_iff in E as [t E].
    exists [], t. split; [exact E | unfold len; simpl; lia].
  - destruct (startswith (c :: s) p) eqn:E.
    + intros <- _. apply startswith_iff in E as [t E].
      exists [], t. split; [exact E | unfold len; simpl; lia].
    + intros Hf Hj. destruct (IH (i + 1) j) as (pre & post & -> & ->);
        [lia | exact Hf | exact Hj |].
      exists (c :: pre), post. split; [reflexivity | rewrite len_cons; lia].
Qed.

Lemma find_at_occurs pre : forall p post i,
  i <= find_at (pre ++ p ++ post) p i <= i + len pre.
Proof.
  induction pre as [|c pre IH]; intros p post i; rewrite find_at_eq.
  - simpl app. replace (startswith (p ++ post) p) with true.
    + unfold len; simpl; lia.
    + symmetry. apply startswith_iff. exists post. reflexivity.
  - pose proof (len_nonneg pre). rewrite len_cons.
    change ((c :: pre) ++ p ++ post) with (c :: (pre ++ p ++ post)).
    destruct (startswith (c :: pre ++ p ++ post) p); [lia|].
    specialize (IH p post (i + 1)). lia.
Qed.

(** A result other than [-1] is the position of an occurrence. *)
Lemma find_found s p j :
  find s p = j -> j <> -1 ->
  0 <= j /\ j + len p <= len s /\ sub s j (j + len p) = p.
Proof.
  intros Hf Hj. destruct (find_at_found s p 0 j) as (pre & post & -> & ->);
    [lia | exact Hf | exact Hj |].
  pose proof (len_nonneg pre). pose proof (len_nonneg post).
  rewrite !len_app. simpl. repeat split; try lia. apply sub_middle.
Qed.

(** [find] fails exactly when there is no occurrence. *)
Lemma find_none_iff s p : find s p = -1 <-> ~ occurs p s.
Proof.
  split.
  - intros Hf (pre & post & ->).
    pose proof (find_at_occurs pre p post 0). unfold find in Hf. lia.
  - intros Hn. destruct (Z.eq_dec (find s p) (-1)) as [E|E]; [exact E|].
    exfalso. apply Hn.
    destruct (find_at_found s p 0 (find s p)) as (pre & post & -> & _);
      [lia | reflexivity | exact E |].
    exists pre, post. reflexivity.
Qed.

End StringFacts.

(** ** Facts about capture and splice *)

Section EditorFacts.

Implicit Types self : TextEditor.
Implicit Types S C M sel : str.

Lemma blank_false_nonempty s : blank s = false -> s <> [].
Proof. intros H ->. discriminate. Qed.

Lemma len_sub_inside S a b :
  0 <= a -> a <= b -> b <= len S -> len (sub S a b) = b - a.
Proof.
  intros. rewrite sub_inside by lia. unfold len in *.
  rewrite length_firstn, length_skipn. lia.
Qed.

Lemma sub_empty S : sub S 0 0 = [].
Proof.
  pose proof (len_nonneg S). rewrite sub_inside by lia. reflexivity.
Qed.

(** The three ways a capture ends: the warning, a located selection, or
    the whole source text. *)
Lemma copy_to_context_cases self S sel :
  let r := copy_to_context self S sel in
  (blank sel = true /\ blank S = true
   /\ r = {| editor := self; shown := Warning no_text_to_copy;
             value := ([], NoData) |})
  \/ (blank sel = false /\ sel <> S /\ find S sel <> -1
      /\ refused r = false
      /\ editor r = set_selection self (find S sel) (find S sel + len sel)
      /\ fst (value r) = sel)
  \/ (((blank sel = true /\ blank S = false)
       \/ (blank sel = false /\ (sel = S \/ find S sel = -1)))
      /\ refused r = false
      /\ editor r = set_selection self 0 (len S)
      /\ fst (value r) = S).
Proof.
  unfold copy_to_context. rewrite (truthy_strip sel).
  destruct (blank sel) eqn:Bsel; simpl negb; cbv iota.
  - rewrite (truthy_strip S). destruct (blank S) eqn:BS; simpl negb; cbv iota.
    + left. auto.
    + right; right. replace (eqb S S) with true
        by (symmetry; apply eqb_eq; reflexivity).
      simpl. auto 10.
  - rewrite (truthy_strip sel), Bsel. simpl negb. cbv iota.
    destruct (eqb sel S) eqn:E; simpl andb; cbv iota.
    + apply eqb_eq in E. right; right. simpl. auto 10.
    + apply eqb_neq in E.
      destruct (find S sel =? -1) eqn:F; simpl negb; cbv iota.
      * apply Z.eqb_eq in F. right; right. simpl. auto 10.
      * apply Z.eqb_neq in F. right; left. simpl. auto 10.
Qed.

(** The five ways a splice ends, in the order the source tests them. *)
Lemma apply_modified_cases self now S C M :
  let r := apply_modified self now S C M in
  (blank C = true
   /\ r = {| editor := self; shown := Warning no_context_selected; value := S |})
  \/ (blank C = false /\ blank M = true
      /\ r = {| editor := self; shown := Warning no_modified_text; value := S |})
  \/ (blank C = false /\ blank M = false
      /\ (selection_start self < 0 \/ selection_end self < 0
          \/ selection_start self >= len S)
      /\ r = {| editor := self; shown := Warning invalid_indices; value := S |})
  \/ (blank C = false /\ blank M = false
      /\ 0 <= selection_start self < len S /\ 0 <= selection_end self
      /\ sub S (Z.max 0 (selection_start self))
           (Z.min (len S) (selection_end self)) <> C
      /\ r = {| editor := self; shown := Warning region_mismatch; value := S |})
  \/ (blank C = false /\ blank M = false
      /\ 0 <= selection_start self < len S /\ 0 <= selection_end self
      /\ sub S (Z.max 0 (selection_start self))
           (Z.min (len S) (selection_end self)) = C
      /\ refused r = false
      /\ selection_start (editor r) = 0 /\ selection_end (editor r) = 0
      /\ value r = upto S (Z.max 0 (selection_start self)) ++ M
                     ++ from S (Z.min (len S) (selection_end self))).
Proof.
  unfold apply_modified. rewrite (truthy_strip C), (truthy_strip M).
  destruct (blank C) eqn:BC; simpl negb; cbv iota; [left; auto|].
  destruct (blank M) eqn:BM; simpl negb; cbv iota; [right; left; auto|].
  destruct (selection_start self <? 0) eqn:E1; simpl orb; cbv iota;
    [right; right; left; repeat split; auto; lia|].
  destruct (selection_end self <? 0) eqn:E2; simpl orb; cbv iota;
    [right; right; left; repeat split; auto; lia|].
  destruct (selection_start self >=? len S) eqn:E3; cbv iota;
    [right; right; left; repeat split; auto; lia|].
  destruct (eqb _ C) eqn:E4; simpl negb; cbv iota.
  - apply eqb_eq in E4. do 4 right. simpl. repeat split; auto; lia.
  - apply eqb_neq in E4. do 3 right; left. repeat split; auto; lia.
Qed.

End EditorFacts.

(** ** Properties of the selection tracker and splicer *)

(** *** Splice *)

(** C1, as stated, fails: with stored offsets [(a, b)] inside the source and
    context [S[a:b]], the splice gives back [S] itself, not
    [S[:a] + M + S[b:]], when the modified text is empty or when the
    selected region is empty. *)
Lemma splice_round_trip_counterexample :
  let S := of_string "ab" in
  (0 <= 0 /\ 0 <= 1 /\ 1 <= len S
   /\ value (apply_modified (editor_at 0 1) clock1 S (sub S 0 1) [])
        <> upto S 0 ++ [] ++ from S 1)
  /\ (0 <= 1 /\ 1 <= 1 /\ 1 <= len S
      /\ value (apply_modified (editor_at 1 1) clock1 S (sub S 1 1)
                  (of_string "x"))
           <> upto S 1 ++ of_string "x" ++ from S 1).
Proof. vm_compute. repeat split; congruence. Qed.

(** C1 (amended): for every source text [S], indices
    [0 <= a <= b <= len(S)] and modified text [M], if the stored offsets
    are [(a, b)], the context passed in is [S[a:b]], and neither [S[a:b]]
    nor [M] is empty or whitespace-only, then [apply_modified] returns
    [S[:a] + M + S[b:]]. *)
Theorem splice_round_trip self now S a b M :
  0 <= a -> a <= b -> b <= len S ->
  selection_start self = a -> selection_end self = b ->
  blank (sub S a b) = false -> blank M = false ->
  value (apply_modified self now S (sub S a b) M) = upto S a ++ M ++ from S b.
Proof.
  intros Ha Hab Hb Hs He BC BM.
  pose proof (not_blank_nonempty _ BC) as Hlen.
  rewrite len_sub_inside in Hlen by assumption.
  destruct (apply_modified_cases self now S (sub S a b) M)
    as [(B & _) | [(_ & B & _) | [(_ & _ & Hbad & _) | [Hmis | Hok]]]];
    try congruence.
  - lia.
  - destruct Hmis as (_ & _ & _ & _ & Hne & _).
    rewrite Hs, He, Z.max_r, Z.min_r in Hne by lia. congruence.
  - destruct Hok as (_ & _ & _ & _ & _ & _ & _ & _ & ->).
    rewrite Hs, He, Z.max_r, Z.min_r by lia. reflexivity.
Qed.

Lemma splice_round_trip_witness :
  value (apply_modified (editor_at 4 15) clock1 fox (sub fox 4 15) slow_red)
  = upto fox 4 ++ slow_red ++ from fox 15.
Proof. apply splice_round_trip; side. Defined.

(** C2: for every source text, non-whitespace context text and
    non-whitespace modified text whose stored offsets pass the index check,
    if the clamped region [sourceText[start:end]] differs from the context
    text, the splice shows the mismatch warning, returns the source text
    unchanged, and leaves the editor as it was. *)
Theorem splice_stale_selection_refused self now S C M :
  blank C = false -> blank M = false ->
  0 <= selection_start self -> 0 <= selection_end self ->
  selection_start self < len S ->
  sub S (Z.max 0 (selection_start self)) (Z.min (len S) (selection_end self))
    <> C ->
  apply_modified self now S C M
  = {| editor := self; shown := Warning region_mismatch; value := S |}.
Proof.
  intros BC BM H1 H2 H3 Hne.
  destruct (apply_modified_cases self now S C M)
    as [(B & _) | [(_ & B & _) | [(_ & _ & Hbad & _) | [Hmis | Hok]]]];
    try congruence.
  - lia.
  - destruct Hmis as (_ & _ & _ & _ & _ & E). exact E.
  - destruct Hok as (_ & _ & _ & _ & E & _). contradiction.
Qed.

Lemma splice_stale_selection_refused_witness :
  apply_modified (editor_at 4 15) clock1 (of_string "The very quick brown fox")
    quick_brown slow_red
  = {| editor := editor_at 4 15; shown := Warning region_mismatch;
       value := of_string "The very quick brown fox" |}.
Proof. apply splice_stale_selection_refused; side. Defined.

(** C4, as stated, fails: with stored offsets [(0, -1)] and a one-character
    source the splice shows the invalid-indices warning although the stored
    start is neither negative nor at or past the end of the source. *)
Lemma splice_invalid_indices_counterexample :
  let S := of_string "a" in
  let self := editor_at 0 (-1) in
  blank S = false /\ blank (of_string "b") = false
  /\ shown (apply_modified self clock1 S S (of_string "b"))
     = Warning invalid_indices
  /\ ~ (selection_start self < 0 \/ selection_start self >= len S).
Proof. vm_compute. repeat split; try congruence. intros [H | H]; congruence. Qed.

(** C4 (amended): for every source text, non-whitespace context text,
    non-whitespace modified text and stored offsets, the splice shows the
    invalid-indices warning if and only if the stored start is negative, the
    stored end is negative, or the stored start is at or past
    [len(sourceText)]. *)
Theorem splice_invalid_indices_iff self now S C M :
  blank C = false -> blank M = false ->
  (shown (apply_modified self now S C M) = Warning invalid_indices
   <-> (selection_start self < 0 \/ selection_end self < 0
        \/ selection_start self >= len S)).
Proof.
  intros BC BM.
  destruct (apply_modified_cases self now S C M)
    as [(B & _) | [(_ & B & _) | [(_ & _ & Hbad & E) | [Hmis | Hok]]]];
    try congruence.
  - rewrite E. simpl. tauto.
  - destruct Hmis as (_ & _ & H1 & H2 & _ & ->). simpl.
    split; [discriminate | lia].
  - destruct Hok as (_ & _ & H1 & H2 & _ & R & _).
    unfold refused in R. split; [|lia].
    intros E. rewrite E in R. discriminate.
Qed.

Lemma splice_invalid_indices_iff_witness :
  shown (apply_modified (editor_at 19 19) clock1 fox quick_brown slow_red)
  = Warning invalid_indices
  <-> (selection_start (editor_at 19 19) < 0
       \/ selection_end (editor_at 19 19) < 0
       \/ selection_start (editor_at 19 19) >= len fox).
Proof. apply splice_invalid_indices_iff; side. Defined.

(** C5: whenever the splice refuses, it returns the source text it was
    given and leaves the editor (stored offsets and document) as it was; the
    refusal is one of the four warnings, and the call ends normally
    ([apply_modified] is a total function returning an outcome). *)
Theorem splice_refusal_atomic self now S C M :
  refused (apply_modified self now S C M) = true ->
  editor (apply_modified self now S C M) = self
  /\ value (apply_modified self now S C M) = S
  /\ (shown (apply_modified self now S C M) = Warning no_context_selected
      \/ shown (apply_modified self now S C M) = Warning no_modified_text
      \/ shown (apply_modified self now S C M) = Warning invalid_indices
      \/ shown (apply_modified self now S C M) = Warning region_mismatch).
Proof.
  intros R.
  destruct (apply_modified_cases self now S C M)
    as [(_ & E) | [(_ & _ & E) | [(_ & _ & _ & E) | [Hmis | Hok]]]].
  - rewrite E. simpl. auto 10.
  - rewrite E. simpl. auto 10.
  - rewrite E. simpl. auto 10.
  - destruct Hmis as (_ & _ & _ & _ & _ & E). rewrite E. simpl. auto 10.
  - destruct Hok as (_ & _ & _ & _ & _ & R' & _). congruence.
Qed.

Lemma splice_refusal_atomic_witness :
  let r := apply_modified (editor_at 4 15) clock1 fox quick_brown [] in
  editor r = editor_at 4 15 /\ value r = fox
  /\ (shown r = Warning no_context_selected
      \/ shown r = Warning no_modified_text
      \/ shown r = Warning invalid_indices
      \/ shown r = Warning region_mismatch).
Proof. apply splice_refusal_atomic; side. Defined.

(** C8: every splice that succeeds resets the stored selection offsets to
    [(0, 0)]. *)
Theorem splice_success_consumes_selection self now S C M :
  succeeded (apply_modified self now S C M) = true ->
  selection_start (editor (apply_modified self now S C M)) = 0
  /\ selection_end (editor (apply_modified self now S C M)) = 0.
Proof.
  unfold succeeded. intros R. apply negb_true_iff in R.
  destruct (apply_modified_cases self now S C M)
    as [(_ & E) | [(_ & _ & E) | [(_ & _ & _ & E) | [Hmis | Hok]]]];
    try (rewrite E in R; discriminate R).
  - destruct Hmis as (_ & _ & _ & _ & _ & E). rewrite E in R. discriminate R.
  - destruct Hok as (_ & _ & _ & _ & _ & _ & H0 & H1 & _). auto.
Qed.

Lemma splice_success_consumes_selection_witness :
  let r := apply_modified (editor_at 4 15) clock1 fox quick_brown slow_red in
  selection_start (editor r) = 0 /\ selection_end (editor r) = 0.
Proof. apply splice_success_consumes_selection; side. Defined.

(** C6: after a splice of context [C] into [S] has succeeded and produced
    [N], a second splice on [N] with the same context [C] and any
    non-whitespace modified text is refused (with the mismatch warning),
    returns [N] unchanged and leaves the editor as the first splice left
    it. *)
Theorem splice_second_call_refused self now S C M now' M' :
  succeeded (apply_modified self now S C M) = true ->
  blank M' = false ->
  apply_modified (editor (apply_modified self now S C M)) now'
    (value (apply_modified self now S C M)) C M'
  = {| editor := editor (apply_modified self now S C M);
       shown := Warning region_mismatch;
       value := value (apply_modified self now S C M) |}.
Proof.
  unfold succeeded. intros R BM'. apply negb_true_iff in R.
  destruct (apply_modified_cases self now S C M)
    as [(_ & E) | [(_ & _ & E) | [(_ & _ & _ & E) | [Hmis | Hok]]]];
    try (rewrite E in R; discriminate R).
  - destruct Hmis as (_ & _ & _ & _ & _ & E). rewrite E in R. discriminate R.
  - destruct Hok as (BC & BM & _ & _ & _ & _ & H0 & H1 & HN).
    set (r1 := apply_modified self now S C M) in *.
    assert (1 <= len (value r1)) as HlenN.
    { rewrite HN, !len_app. pose proof (not_blank_nonempty _ BM).
      pose proof (len_nonneg (upto S (Z.max 0 (selection_start self)))).
      pose proof (len_nonneg (from S (Z.min (len S) (selection_end self)))).
      lia. }
    destruct (apply_modified_cases (editor r1) now' (value r1) C M')
      as [(B & _) | [(_ & B & _) | [(_ & _ & Hbad & _) | [Hmis | Hok]]]];
      try congruence.
    + lia.
    + destruct Hmis as (_ & _ & _ & _ & _ & E). exact E.
    + destruct Hok as (_ & _ & _ & _ & E & _).
      rewrite H0, H1, Z.max_id, Z.min_r in E by lia.
      rewrite sub_empty in E. rewrite <- E in BC. discriminate BC.
Qed.

Lemma splice_second_call_refused_witness :
  let r1 := apply_modified (editor_at 4 15) clock1 fox quick_brown slow_red in
  apply_modified (editor r1) clock2 (value r1) quick_brown (of_string "fast")
  = {| editor := editor r1; shown := Warning region_mismatch;
       value := value r1 |}.
Proof. apply splice_second_call_refused; side. Defined.

(** *** Capture *)

(** C3, as stated, fails: a single space is a substring of ["a b"], yet
    capturing it stores the offsets of the whole source and returns the whole
    source as the context text. *)
Lemma capture_resolves_selection_counterexample :
  let S := of_string "a b" in
  let sel := of_string " " in
  let r := copy_to_context editor0 S sel in
  S <> [] /\ S = of_string "a" ++ sel ++ of_string "b"
  /\ sub S (selection_start (editor r)) (selection_end (editor r)) <> sel
  /\ fst (value r) <> sel.
Proof. vm_compute. repeat split; congruence. Qed.

(** C3 (amended): for every source text and every substring [sel] of it
    that is not empty or whitespace-only, [copy_to_context] stores offsets
    [(start, end)] with [sourceText[start:end] == sel] and returns [sel] as
    the context text. *)
Theorem capture_resolves_selection self S sel :
  occurs sel S -> blank sel = false ->
  sub S (selection_start (editor (copy_to_context self S sel)))
        (selection_end (editor (copy_to_context self S sel))) = sel
  /\ fst (value (copy_to_context self S sel)) = sel.
Proof.
  intros Hocc Bsel.
  destruct (copy_to_context_cases self S sel)
    as [(B & _) | [Hfound | Hfull]]; [congruence | |].
  - destruct Hfound as (_ & _ & Hf & _ & -> & ->). simpl.
    split; [|reflexivity].
    apply (find_found S sel (find S sel)); [reflexivity | exact Hf].
  - destruct Hfull as ([(B & _) | (_ & [E | Hf])] & _ & -> & ->); simpl.
    + congruence.
    + subst sel. split; [apply sub_whole | reflexivity].
    + apply find_none_iff in Hf. contradiction.
Qed.

Lemma capture_resolves_selection_witness :
  sub fox (selection_start (editor (copy_to_context editor0 fox quick_brown)))
        (selection_end (editor (copy_to_context editor0 fox quick_brown)))
  = quick_brown
  /\ fst (value (copy_to_context editor0 fox quick_brown)) = quick_brown.
Proof.
  apply capture_resolves_selection;
    [exists (of_string "The "), (of_string " fox"); reflexivity | reflexivity].
Defined.

(** C7, as stated, fails: for the non-empty source [" "] and an empty
    selection the capture warns that there is nothing to copy, returns the
    empty string and stores no offsets. *)
Lemma capture_full_text_fallback_counterexample :
  let S := of_string " " in
  let r := copy_to_context editor0 S [] in
  S <> [] /\ blank [] = true
  /\ shown r = Warning no_text_to_copy
  /\ selection_end (editor r) <> len S
  /\ fst (value r) <> S.
Proof. vm_compute. repeat split; congruence. Qed.

(** C7 (amended): for every source text, if the selected text is empty or
    whitespace-only and the source text is not, or the selected text is not
    whitespace-only and does not occur verbatim in the source text, then
    [copy_to_context] stores the offsets [(0, len(sourceText))] and returns
    the entire source text as the context text. *)
Theorem capture_full_text_fallback self S sel :
  (blank sel = true /\ blank S = false)
  \/ (blank sel = false /\ ~ occurs sel S) ->
  selection_start (editor (copy_to_context self S sel)) = 0
  /\ selection_end (editor (copy_to_context self S sel)) = len S
  /\ fst (value (copy_to_context self S sel)) = S.
Proof.
  intros H.
  destruct (copy_to_context_cases self S sel)
    as [(B1 & B2 & _) | [Hfound | Hfull]].
  - destruct H as [(_ & B) | (B & _)]; congruence.
  - destruct Hfound as (B & _ & Hf & _).
    destruct H as [(B' & _) | (_ & Hn)]; [congruence|].
    apply find_none_iff in Hn. contradiction.
  - destruct Hfull as (_ & _ & -> & ->). simpl. auto.
Qed.

Lemma capture_full_text_fallback_witness :
  let r := copy_to_context editor0 (of_string "Hello world") [] in
  selection_start (editor r) = 0
  /\ selection_end (editor r) = len (of_string "Hello world")
  /\ fst (value r) = of_string "Hello world".
Proof.
  apply capture_full_text_fallback. left. split; reflexivity.
Defined.

(** C9: for every source text and selected text, after a [copy_to_context]
    call that does not warn that there is nothing to copy, the stored
    offsets satisfy
    [0 <= selection_start <= selection_end <= len(sourceText)]. *)
Theorem capture_offset_invariant self S sel :
  shown (copy_to_context self S sel) <> Warning no_text_to_copy ->
  0 <= selection_start (editor (copy_to_context self S sel))
  /\ selection_start (editor (copy_to_context self S sel))
     <= selection_end (editor (copy_to_context self S sel))
  /\ selection_end (editor (copy_to_context self S sel)) <= len S.
Proof.
  intros Hw. pose proof (len_nonneg S). pose proof (len_nonneg sel).
  destruct (copy_to_context_cases self S sel)
    as [(_ & _ & E) | [Hfound | Hfull]].
  - rewrite E in Hw. simpl in Hw. congruence.
  - destruct Hfound as (_ & _ & Hf & _ & -> & _). simpl.
    destruct (find_found S sel (find S sel)) as (H1 & H2 & _);
      [reflexivity | exact Hf | lia].
  - destruct Hfull as (_ & _ & -> & _). simpl. lia.
Qed.

Lemma capture_offset_invariant_witness :
  let r := copy_to_context editor0 fox quick_brown in
  0 <= selection_start (editor r)
  /\ selection_start (editor r) <= selection_end (editor r)
  /\ selection_end (editor r) <= len fox.
Proof. apply capture_offset_invariant; side. Defined.

(** C10: for every source text and selected text, whenever
    [copy_to_context] completes without the nothing-to-copy warning, the
    context text it returns is
    [sourceText[selection_start:selection_end]] for the offsets it stored,
    whether the selection was located, was whitespace-only, or was not found
    and the full text was taken. *)
Theorem capture_context_coherent self S sel :
  shown (copy_to_context self S sel) <> Warning no_text_to_copy ->
  fst (value (copy_to_context self S sel))
  = sub S (selection_start (editor (copy_to_context self S sel)))
          (selection_end (editor (copy_to_context self S sel))).
Proof.
  intros Hw.
  destruct (copy_to_context_cases self S sel)
    as [(_ & _ & E) | [Hfound | Hfull]].
  - rewrite E in Hw. simpl in Hw. congruence.
  - destruct Hfound as (_ & _ & Hf & _ & -> & ->). simpl.
    symmetry. apply (find_found S sel (find S sel)); [reflexivity | exact Hf].
  - destruct Hfull as (_ & _ & -> & ->). simpl. symmetry. apply sub_whole.
Qed.

Lemma capture_context_coherent_witness :
  let r := copy_to_context editor0 fox (of_string "lazy dog") in
  fst (value r) = sub fox (selection_start (editor r)) (selection_end (editor r)).
Proof. apply capture_context_coherent; side. Defined.

(** ** Further facts: dictionaries, word splitting, the footnote table *)

Section MoreFacts.

Implicit Types self : TextEditor.
Implicit Types S C M sel s cur w : str.

Lemma dict_get_set_same k v d : dict_get k (dict_set k v d) = Some v.
Proof.
  induction d as [|[k' v'] d IH]; simpl.
  - rewrite String.eqb_refl. reflexivity.
  - destruct (String.eqb k k') eqn:E; simpl; rewrite ?E, ?String.eqb_refl;
      [reflexivity | exact IH].
Qed.

Lemma dict_get_set_other k k' v d :
  k <> k' -> dict_get k' (dict_set k v d) = dict_get k' d.
Proof.
  intros Hne. induction d as [|[k0 v0] d IH]; simpl.
  - destruct (String.eqb k' k) eqn:E; [|reflexivity].
    apply String.eqb_eq in E. congruence.
  - destruct (String.eqb k k0) eqn:E; simpl.
    + apply String.eqb_eq in E. subst k0.
      destruct (String.eqb k' k) eqn:E'; [|reflexivity].
      apply String.eqb_eq in E'. congruence.
    + destruct (String.eqb k' k0); [reflexivity | exact IH].
Qed.

Lemma refusal_unchanged self now S C M :
  refused (apply_modified self now S C M) = true ->
  editor (apply_modified self now S C M) = self
  /\ value (apply_modified self now S C M) = S.
Proof.
  intros R.
  destruct (apply_modified_cases self now S C M)
    as [(_ & E) | [(_ & _ & E) | [(_ & _ & _ & E) | [Hmis | Hok]]]];
    try (rewrite E; simpl; auto).
  - destruct Hmis as (_ & _ & _ & _ & _ & E). rewrite E. simpl. auto.
  - destruct Hok as (_ & _ & _ & _ & _ & R' & _). congruence.
Qed.

(** With the offsets at [(0, 0)] no splice goes through. *)
Lemma splice_at_origin_refused self now S C M :
  selection_start self = 0 -> selection_end self = 0 ->
  refused (apply_modified self now S C M) = true.
Proof.
  intros H0 H1.
  destruct (apply_modified_cases self now S C M)
    as [(_ & E) | [(_ & _ & E) | [(_ & _ & _ & E) | [Hmis | Hok]]]];
    try (rewrite E; reflexivity).
  - destruct Hmis as (_ & _ & _ & _ & _ & E). rewrite E. reflexivity.
  - destruct Hok as (BC & _ & Hs & _ & E & _).
    rewrite H0, H1, Z.max_id, Z.min_r in E by lia.
    rewrite sub_empty in E. subst C. discriminate BC.
Qed.

Lemma occurs_blank sel S : occurs sel S -> blank S = true -> blank sel = true.
Proof.
  intros (pre & post & ->) B. rewrite !blank_app in B.
  apply andb_true_iff in B as [_ B]. apply andb_true_iff in B as [B _].
  exact B.
Qed.

Lemma upto_zero S : upto S 0 = [].
Proof.
  pose proof (len_nonneg S). rewrite upto_inside by lia. reflexivity.
Qed.

Lemma from_end S : from S (len S) = [].
Proof.
  pose proof (len_nonneg S). rewrite from_inside by lia.
  apply skipn_all2. unfold len. lia.
Qed.

(** *** [split] *)

Lemma split_acc_clean s : forall cur w,
  forallb (fun c => negb (is_space c)) cur = true ->
  In w (split_acc s cur) -> clean w.
Proof.
  assert (Hrev : forall cur, cur <> [] ->
            forallb (fun c => negb (is_space c)) cur = true -> clean (rev cur)).
  { intros cur Hne Hc. split.
    - intros E. apply (f_equal (@rev char)) in E. rewrite rev_involutive in E.
      simpl in E. contradiction.
    - rewrite forallb_forall in *. intros c Hin. apply Hc.
      apply in_rev. exact Hin. }
  induction s as [|c s IH]; intros cur w Hc; simpl.
  - destruct cur as [|d cur]; simpl; [tauto|].
    intros [<- | []]. apply (Hrev (d :: cur)); [discriminate | exact Hc].
  - destruct (is_space c) eqn:Ec.
    + destruct cur as [|d cur]; simpl.
      * apply IH. reflexivity.
      * intros [<- | Hin]; [apply (Hrev (d :: cur)); [discriminate | exact Hc]|].
        apply (IH [] w); [reflexivity | exact Hin].
    + apply IH. simpl. rewrite Ec. exact Hc.
Qed.

Lemma split_acc_nil_iff s : forall cur,
  split_acc s cur = [] <-> (blank s = true /\ cur = []).
Proof.
  induction s as [|c s IH]; intros cur; simpl.
  - destruct cur; simpl; split; try tauto; try discriminate.
    intros [_ [=]].
  - destruct (is_space c) eqn:Ec; simpl.
    + destruct cur as [|d cur]; simpl.
      * rewrite IH. tauto.
      * split; [discriminate | intros [_ [=]]].
    + rewrite IH. split; [intros [_ [=]] | intros [[=] _]].
Qed.

Lemma split_acc_length s : forall cur,
  (List.length (split_acc s cur)
   <= List.length s + (if truthy cur then 1 else 0))%nat.
Proof.
  induction s as [|c s IH]; intros cur; simpl.
  - destruct cur; simpl; lia.
  - destruct (is_space c).
    + destruct cur; simpl; specialize (IH []); simpl in IH; lia.
    + specialize (IH (c :: cur)). simpl in IH. destruct cur; simpl; lia.
Qed.

(** *** The footnote table *)

Lemma enumerate_rows_length fs : forall start,
  List.length (enumerate_rows start fs) = List.length fs.
Proof. induction fs as [|f fs IH]; intros start; simpl; [|rewrite IH]; reflexivity. Qed.

Lemma enumerate_rows_nth fs : forall start i f,
  nth_error fs i = Some f ->
  nth_error (enumerate_rows start fs) i = Some (true, start + Z.of_nat i, f).
Proof.
  induction fs as [|g fs IH]; intros start i f; destruct i as [|i]; simpl;
    try discriminate.
  - intros [= ->]. rewrite Z.add_0_r. reflexivity.
  - intros H. rewrite (IH (start + 1) i f H). do 3 f_equal. lia.
Qed.

Lemma enumerate_rows_refs fs : forall start,
  map snd (enumerate_rows start fs) = fs.
Proof. induction fs as [|f fs IH]; intros start; simpl; [|rewrite IH]; reflexivity. Qed.

Lemma format_footnotes_nonempty self f fs :
  footnotes (document self) = f :: fs ->
  _format_footnotes self = enumerate_rows 1 (f :: fs).
Proof.
  intros E. unfold _format_footnotes. rewrite E. simpl truthy_list.
  unfold len_list. simpl List.length.
  replace (Z.of_nat (S (List.length fs)) >? 0) with true; [reflexivity|].
  symmetry. apply Z.gtb_lt. lia.
Qed.

End MoreFacts.

(** ** Further properties of the editor *)

(** X1: after [new_document] or [clear_document] every [apply_modified]
    call is refused, whatever the three texts are: it returns the source
    text it was given and leaves the fresh editor as it is. *)
Theorem reset_then_splice_refused self now now' S C M :
  (let e := editor (new_document self now) in
   refused (apply_modified e now' S C M) = true
   /\ value (apply_modified e now' S C M) = S
   /\ editor (apply_modified e now' S C M) = e)
  /\ (let e := editor (clear_document self now) in
      refused (apply_modified e now' S C M) = true
      /\ value (apply_modified e now' S C M) = S
      /\ editor (apply_modified e now' S C M) = e).
Proof.
  split; cbv zeta;
    match goal with
    | |- refused (apply_modified ?e _ _ _ _) = true /\ _ =>
        assert (R : refused (apply_modified e now' S C M) = true)
          by (apply splice_at_origin_refused; reflexivity);
        destruct (refusal_unchanged e now' S C M R) as [He Hv]; auto
    end.
Qed.

(** X2: a splice that succeeds replaces exactly the region that starts at
    the stored start and reads as the context text; the text before and
    after it is kept as it was. *)
Theorem splice_success_replaces_region self now S C M :
  succeeded (apply_modified self now S C M) = true ->
  exists pre post,
    S = pre ++ C ++ post
    /\ value (apply_modified self now S C M) = pre ++ M ++ post
    /\ len pre = selection_start self.
Proof.
  unfold succeeded. intros R. apply negb_true_iff in R.
  destruct (apply_modified_cases self now S C M)
    as [(_ & E) | [(_ & _ & E) | [(_ & _ & _ & E) | [Hmis | Hok]]]];
    try (rewrite E in R; discriminate R).
  - destruct Hmis as (_ & _ & _ & _ & _ & E). rewrite E in R. discriminate R.
  - destruct Hok as (BC & _ & Hs & He & Hreg & _ & _ & _ & Hv).
    set (a := Z.max 0 (selection_start self)) in *.
    set (b := Z.min (len S) (selection_end self)) in *.
    assert (Ha : a = selection_start self) by (unfold a; lia).
    assert (Hab : a <= b).
    { destruct (Z_le_gt_dec a b) as [H | H]; [exact H | exfalso].
      assert (sub S a b = []) as E.
      { unfold sub, slice. rewrite !adjust_inside by (unfold b in *; lia).
        replace (Z.to_nat (b - a)) with 0%nat by lia. reflexivity. }
      rewrite E in Hreg. subst C. discriminate BC. }
    exists (upto S a), (from S b). rewrite <- Hreg at 1.
    assert (Hb : b <= len S) by (unfold b; lia).
    rewrite slice_decompose by lia.
    repeat split; [exact Hv|].
    rewrite upto_inside by lia. unfold len in *.
    rewrite length_firstn. lia.
Qed.

Lemma splice_success_replaces_region_witness :
  exists pre post,
    fox = pre ++ quick_brown ++ post
    /\ value (apply_modified (editor_at 4 15) clock1 fox quick_brown slow_red)
       = pre ++ slow_red ++ post
    /\ len pre = selection_start (editor_at 4 15).
Proof. apply splice_success_replaces_region; side. Defined.

(** X3: a splice that succeeds stores the text it returns in the document,
    stamps [last_modified] with the clock reading, and keeps the footnotes
    and every other metadata entry, [created_at] among them. *)
Theorem splice_success_updates_document self now S C M :
  succeeded (apply_modified self now S C M) = true ->
  let d := document (editor (apply_modified self now S C M)) in
  text d = value (apply_modified self now S C M)
  /\ footnotes d = footnotes (document self)
  /\ dict_get "last_modified" (metadata d) = Some now
  /\ (forall k, k <> "last_modified"%string ->
        dict_get k (metadata d) = dict_get k (metadata (document self))).
Proof.
  unfold succeeded. intros R. apply negb_true_iff in R. cbv zeta.
  unfold apply_modified in *.
  destruct (negb (truthy (strip C))); [discriminate R|].
  destruct (negb (truthy (strip M))); [discriminate R|].
  destruct (_ || _ || _); [discriminate R|].
  destruct (negb (eqb _ C)); [discriminate R|].
  simpl. repeat split.
  - apply dict_get_set_same.
  - intros k Hk. apply dict_get_set_other. congruence.
Qed.

Lemma splice_success_updates_document_witness :
  let d := document (editor (apply_modified (editor_at 4 15) clock1 fox
                               quick_brown slow_red)) in
  text d = value (apply_modified (editor_at 4 15) clock1 fox quick_brown slow_red)
  /\ footnotes d = footnotes (document (editor_at 4 15))
  /\ dict_get "last_modified" (metadata d) = Some clock1
  /\ (forall k, k <> "last_modified"%string ->
        dict_get k (metadata d)
        = dict_get k (metadata (document (editor_at 4 15)))).
Proof. apply splice_success_updates_document; side. Defined.



(** X5: on a source that is not whitespace-only, a capture followed by a
    splice of any non-whitespace modified text, with the context the capture
    returned, always succeeds; the result is the source with the captured
    span [[start, end)] replaced. *)
Theorem capture_then_splice_succeeds self now S sel M :
  blank S = false -> blank M = false ->
  let c := copy_to_context self S sel in
  let r := apply_modified (editor c) now S (fst (value c)) M in
  succeeded r = true
  /\ value r = upto S (selection_start (editor c)) ++ M
                 ++ from S (selection_end (editor c)).
Proof.
  intros BS BM c r.
  assert (Hc : blank (fst (value c)) = false
               /\ 0 <= selection_start (editor c)
               /\ selection_start (editor c) <= selection_end (editor c)
               /\ selection_end (editor c) <= len S
               /\ sub S (selection_start (editor c)) (selection_end (editor c))
                  = fst (value c)).
  { pose proof (len_nonneg S). pose proof (len_nonneg sel). subst c.
    destruct (copy_to_context_cases self S sel)
      as [(_ & B & _) | [Hfound | Hfull]]; [congruence | |].
    - destruct Hfound as (B & _ & Hf & _ & -> & ->). simpl.
      destruct (find_found S sel (find S sel)) as (H1 & H2 & H3);
        [reflexivity | exact Hf |].
      repeat split; try assumption; lia.
    - destruct Hfull as (_ & _ & -> & ->). simpl.
      repeat split; try assumption; try lia. apply sub_whole. }
  destruct Hc as (BC & H0 & H1 & H2 & Hreg).
  pose proof (not_blank_nonempty _ BC) as Hlen.
  rewrite <- Hreg in Hlen. rewrite len_sub_inside in Hlen by assumption.
  subst r.
  destruct (apply_modified_cases (editor c) now S (fst (value c)) M)
    as [(B & _) | [(_ & B & _) | [(_ & _ & Hbad & _) | [Hmis | Hok]]]];
    try congruence.
  - lia.
  - destruct Hmis as (_ & _ & _ & _ & Hne & _).
    rewrite Z.max_r, Z.min_r in Hne by lia. contradiction.
  - destruct Hok as (_ & _ & _ & _ & _ & R & _ & _ & ->).
    unfold succeeded. rewrite R, Z.max_r, Z.min_r by lia. auto.
Qed.

Lemma capture_then_splice_succeeds_witness :
  let c := copy_to_context editor0 fox quick_brown in
  let r := apply_modified (editor c) clock1 fox (fst (value c)) slow_red in
  succeeded r = true
  /\ value r = upto fox (selection_start (editor c)) ++ slow_red
                 ++ from fox (selection_end (editor c)).
Proof. apply capture_then_splice_succeeds; side. Defined.

(** X6: when capture falls back to the full text (the selection is
    whitespace-only, or it is not found in the source), a following splice
    of a non-whitespace modified text replaces the whole source: it returns
    the modified text itself. *)
Theorem fallback_then_splice_replaces_all self now S sel M :
  blank S = false -> blank M = false ->
  blank sel = true \/ ~ occurs sel S ->
  let c := copy_to_context self S sel in
  value (apply_modified (editor c) now S (fst (value c)) M) = M.
Proof.
  intros BS BM Hsel c.
  assert (Hc : editor c = set_selection self 0 (len S) /\ fst (value c) = S).
  { subst c.
    destruct (copy_to_context_cases self S sel)
      as [(_ & B & _) | [Hfound | Hfull]]; [congruence | |].
    - destruct Hfound as (B & _ & Hf & _). destruct Hsel as [B' | Hn];
        [congruence|]. apply find_none_iff in Hn. contradiction.
    - destruct Hfull as (_ & _ & E1 & E2). auto. }
  destruct Hc as [E1 E2]. rewrite E1, E2.
  pose proof (not_blank_nonempty _ BS) as Hlen.
  destruct (apply_modified_cases (set_selection self 0 (len S)) now S S M)
    as [(B & _) | [(_ & B & _) | [(_ & _ & Hbad & _) | [Hmis | Hok]]]];
    try congruence; simpl selection_start in *; simpl selection_end in *.
  - lia.
  - destruct Hmis as (_ & _ & _ & _ & Hne & _).
    rewrite Z.max_id, Z.min_id, sub_whole in Hne. contradiction.
  - destruct Hok as (_ & _ & _ & _ & _ & _ & _ & _ & ->).
    rewrite Z.max_id, Z.min_id, upto_zero, from_end. simpl. apply app_nil_r.
Qed.

Lemma fallback_then_splice_replaces_all_witness :
  let c := copy_to_context editor0 (of_string "Hello world") [] in
  value (apply_modified (editor c) clock1 (of_string "Hello world")
           (fst (value c)) (of_string "Hi there"))
  = of_string "Hi there".
Proof.
  apply fallback_then_splice_replaces_all; [reflexivity | reflexivity |].
  left. reflexivity.
Defined.

(** X7: over a source that is empty or whitespace-only, capturing a
    selection that is not whitespace-only reports success and hands back
    that blank source as the context, with offsets [(0, len(source))]; the
    splice that follows is then refused for want of a context. *)
Theorem blank_source_capture_then_refused self now S sel M :
  blank S = true -> blank sel = false ->
  let c := copy_to_context self S sel in
  shown c = Info (copied_info 0 (len S))
  /\ fst (value c) = S
  /\ editor c = set_selection self 0 (len S)
  /\ apply_modified (editor c) now S (fst (value c)) M
     = {| editor := editor c; shown := Warning no_context_selected;
          value := S |}.
Proof.
  intros BS Bsel c.
  assert (Hn : find S sel = -1).
  { apply find_none_iff. intros Ho.
    pose proof (occurs_blank _ _ Ho BS). congruence. }
  assert (Hne : eqb sel S = false) by (apply eqb_neq; intros ->; congruence).
  assert (Ec : c = {| editor := set_selection self 0 (len S);
                      shown := Info (copied_info 0 (len S));
                      value := (S, Stats (if truthy S
                                          then Z.of_nat (List.length (split S))
                                          else 0) (len S)
                                     (range_text 0 (len S))) |}).
  { subst c. unfold copy_to_context. cbv zeta.
    repeat (rewrite (truthy_strip sel), Bsel; simpl negb; cbv iota).
    rewrite Hne, Hn. reflexivity. }
  rewrite Ec. simpl. repeat split.
  unfold apply_modified. rewrite (truthy_strip S), BS. reflexivity.
Qed.

Lemma blank_source_capture_then_refused_witness :
  let c := copy_to_context editor0 (of_string "  ") (of_string "x") in
  shown c = Info (copied_info 0 (len (of_string "  ")))
  /\ fst (value c) = of_string "  "
  /\ editor c = set_selection editor0 0 (len (of_string "  "))
  /\ apply_modified (editor c) clock1 (of_string "  ") (fst (value c)) slow_red
     = {| editor := editor c; shown := Warning no_context_selected;
          value := of_string "  " |}.
Proof. apply blank_source_capture_then_refused; reflexivity. Defined.

(** *** Word counts *)

(** X8: [get_word_count] is zero exactly for the texts that are empty or
    whitespace-only, and it never exceeds the number of characters. *)
Theorem get_word_count_zero_iff_blank s :
  (get_word_count s = 0 <-> blank s = true)
  /\ 0 <= get_word_count s <= len s.
Proof.
  unfold get_word_count, split. split.
  - destruct s as [|c s]; [simpl; tauto|]. simpl truthy. cbv iota. split.
    + intros H. apply (split_acc_nil_iff (c :: s) []).
      destruct (split_acc (c :: s) []); [reflexivity | simpl in H; lia].
    + intros B. replace (split_acc (c :: s) []) with (@nil str);
        [reflexivity|].
      symmetry. apply split_acc_nil_iff. auto.
  - pose proof (split_acc_length s []) as H. simpl in H.
    pose proof (len_nonneg s). unfold len in *. destruct (truthy s); lia.
Qed.

(** Every word [split] returns is non-empty and free of whitespace. *)
Theorem split_words_clean s w : In w (split s) -> clean w.
Proof. apply split_acc_clean. reflexivity. Qed.

Lemma split_words_clean_witness : clean (of_string "quick").
Proof.
  apply (split_words_clean fox). vm_compute. right. left. reflexivity.
Defined.

(** *** The footnote table and the statistics *)

(** X9: [_format_footnotes] never returns an empty table.  Without
    footnotes it is the single placeholder row; otherwise it has one checked
    row per footnote, in order, numbered from 1. *)
Theorem format_footnotes_rows self :
  (footnotes (document self) = [] ->
   _format_footnotes self = [(false, 0, no_footnotes)])
  /\ (footnotes (document self) <> [] ->
      List.length (_format_footnotes self)
      = List.length (footnotes (document self))
      /\ map snd (_format_footnotes self) = footnotes (document self)
      /\ forall i f, nth_error (footnotes (document self)) i = Some f ->
           nth_error (_format_footnotes self) i
           = Some (true, Z.of_nat i + 1, f)).
Proof.
  split.
  - intros E. unfold _format_footnotes. rewrite E. reflexivity.
  - intros Hne. destruct (footnotes (document self)) as [|f fs] eqn:E;
      [contradiction|].
    rewrite (format_footnotes_nonempty self f fs E).
    split; [apply enumerate_rows_length|].
    split; [apply enumerate_rows_refs|].
    intros i g Hg. rewrite (enumerate_rows_nth _ 1 i g Hg). do 3 f_equal. lia.
Qed.

(** X10: the number [add_footnote] returns is the number under which the
    footnote table then lists the new footnote, in its last row. *)
Theorem add_footnote_number self footnote now :
  let '(d, n) := add_footnote (document self) footnote now in
  let self' := {| document := d; selection_start := selection_start self;
                  selection_end := selection_end self |} in
  n = Z.of_nat (List.length (footnotes (document self))) + 1
  /\ nth_error (_format_footnotes self') (Z.to_nat (n - 1))
     = Some (true, n, footnote)
  /\ List.length (_format_footnotes self') = Z.to_nat n.
Proof.
  unfold add_footnote. cbv zeta.
  set (fs := footnotes (document self)).
  set (self' := {| document := _; selection_start := _; selection_end := _ |}).
  assert (Hfs : footnotes (document self') = fs ++ [footnote]) by reflexivity.
  assert (Hne : exists g gs, fs ++ [footnote] = g :: gs).
  { destruct fs as [|g gs]; simpl; eauto. }
  destruct Hne as (g & gs & Eg).
  assert (Hfmt : _format_footnotes self' = enumerate_rows 1 (fs ++ [footnote])).
  { rewrite Eg. apply format_footnotes_nonempty. rewrite Hfs. exact Eg. }
  rewrite Hfmt, enumerate_rows_length, length_app. simpl List.length.
  split; [lia|]. split; [|lia].
  replace (Z.to_nat (Z.of_nat (List.length fs + 1) - 1)) with (List.length fs)
    by lia.
  rewrite (enumerate_rows_nth (fs ++ [footnote]) 1 (List.length fs) footnote).
  - do 3 f_equal. lia.
  - rewrite nth_error_app2 by lia. rewrite Nat.sub_diag. reflexivity.
Qed.

(** X11: the context statistics [update_counts] recomputes after a capture
    are the ones [copy_to_context] returned: same word count, same
    character count, same selection range. *)
Theorem update_counts_agrees_with_capture self S sel M :
  shown (copy_to_context self S sel) <> Warning no_text_to_copy ->
  let c := copy_to_context self S sel in
  snd (fst (update_counts (editor c) S (fst (value c)) M)) = snd (value c).
Proof.
  intros Hw c.
  assert (Hrange : forall e,
    (if negb (selection_start e =? 0) || negb (selection_end e =? 0)
     then range_text (selection_start e) (selection_end e)
     else "0:0"%string) = range_text (selection_start e) (selection_end e)).
  { intros e. destruct (selection_start e =? 0) eqn:E1;
      destruct (selection_end e =? 0) eqn:E2; simpl; try reflexivity.
    apply Z.eqb_eq in E1, E2. rewrite E1, E2. reflexivity. }
  assert (Hchars : forall t, (if truthy t then len t else 0) = len t)
    by (intros [|? ?]; reflexivity).
  unfold update_counts. cbv zeta. simpl snd. simpl fst.
  rewrite Hrange, Hchars. unfold get_word_count.
  subst c. revert Hw. unfold copy_to_context. cbv zeta.
  destruct (negb (truthy (strip _))); [simpl; congruence|].
  intros _.
  destruct (negb (eqb _ S) && _); [destruct (negb (_ =? -1))|]; reflexivity.
Qed.

Lemma update_counts_agrees_with_capture_witness :
  let c := copy_to_context editor0 fox quick_brown in
  snd (fst (update_counts (editor c) fox (fst (value c)) [])) = snd (value c).
Proof. apply update_counts_agrees_with_capture; side. Defined.

(** *** The document *)

Lemma apply_edit_metadata d e k :
  k <> "last_modified"%string ->
  dict_get k (metadata (apply_edit d e)) = dict_get k (metadata d)
  /\ dict_get "last_modified" (metadata (apply_edit d e)) = Some (edit_clock e).
Proof.
  intros Hk. destruct e; simpl;
    (split; [apply dict_get_set_other; congruence | apply dict_get_set_same]).
Qed.

(** X12: a document built by the constructor carries a [created_at] entry
    (the one passed in the metadata when there is one, the clock reading
    otherwise), and no sequence of [update_text], [update_footnotes] and
    [add_footnote] calls changes it; after the last of them [last_modified]
    is that call's clock reading. *)
Theorem created_at_invariant t fs m now es :
  let d := apply_edits (TextDocument_init t fs m now) es in
  dict_get "created_at" (metadata d)
  = Some match m with
         | Some m' => match dict_get "created_at" m' with
                      | Some v => v
                      | None => now
                      end
         | None => now
         end
  /\ (forall es' e, es = es' ++ [e] ->
        dict_get "last_modified" (metadata d) = Some (edit_clock e)).
Proof.
  cbv zeta. split.
  - assert (H : forall d, dict_get "created_at" (metadata (apply_edits d es))
                          = dict_get "created_at" (metadata d)).
    { unfold apply_edits. induction es as [|e es IH]; intros d; simpl;
        [reflexivity|].
      rewrite IH. apply (apply_edit_metadata d e "created_at"). discriminate. }
    rewrite H. unfold TextDocument_init. cbv zeta. simpl metadata.
    rewrite dict_get_set_same. destruct m as [[|kv m']|]; reflexivity.
  - intros es' e ->. unfold apply_edits. rewrite fold_left_app. simpl.
    apply (apply_edit_metadata _ e "created_at"). discriminate.
Qed.

(** ** Facts about [in], [split(sep)] and [replace] *)

Section SeparatorFacts.

Implicit Types s p sep cur pre post : str.

Lemma occurs_cons p c s :
  occurs p (c :: s) <-> startswith (c :: s) p = true \/ occurs p s.
Proof.
  split.
  - intros (pre & post & E). destruct pre as [|d pre].
    + left. apply startswith_iff. exists post. exact E.
    + right. simpl in E. injection E as _ E. exists pre, post. exact E.
  - intros [H | (pre & post & ->)].
    + apply startswith_iff in H as [t E]. exists [], t. exact E.
    + exists (c :: pre), post. reflexivity.
Qed.

Lemma occurs_nil p : occurs p [] <-> p = [].
Proof.
  split.
  - intros (pre & post & E). destruct pre; [|discriminate].
    destruct p; [reflexivity | discriminate].
  - intros ->. exists [], []. reflexivity.
Qed.

(** [p in s] holds exactly when [p] occurs in [s]. *)
Lemma contains_iff s p : contains s p = true <-> occurs p s.
Proof.
  induction s as [|c s IH].
  - simpl. rewrite orb_false_r, occurs_nil. destruct p; simpl; split;
      congruence.
  - change (contains (c :: s) p)
      with (startswith (c :: s) p || contains s p).
    rewrite orb_true_iff, IH, occurs_cons. tauto.
Qed.

Lemma split_on_acc_cons sep c s cur :
  split_on_acc sep (c :: s) cur 0
  = if startswith (c :: s) sep
    then rev cur :: split_on_acc sep s [] (List.length sep - 1)
    else split_on_acc sep s (c :: cur) 0.
Proof. reflexivity. Qed.

(** The first piece [split(sep)] returns: the whole string when the
    separator does not occur, otherwise what precedes its first
    occurrence. *)
Lemma split_on_acc_head sep : sep <> [] -> forall s cur,
  (~ occurs sep s -> split_on_acc sep s cur 0 = [rev cur ++ s])
  /\ (occurs sep s ->
      exists f rest tl,
        split_on_acc sep s cur 0 = (rev cur ++ f) :: tl
        /\ s = f ++ sep ++ rest
        /\ forall pre post, s = pre ++ sep ++ post -> len f <= len pre).
Proof.
  intros Hsep. induction s as [|c s IH]; intros cur.
  - split.
    + intros _. simpl. rewrite app_nil_r. reflexivity.
    + intros H. apply occurs_nil in H. contradiction.
  - rewrite split_on_acc_cons. destruct (startswith (c :: s) sep) eqn:E.
    + split.
      * intros Hn. exfalso. apply Hn. apply occurs_cons. left. exact E.
      * intros _. apply startswith_iff in E as [rest E].
        exists [], rest, (split_on_acc sep s [] (List.length sep - 1)).
        rewrite app_nil_r. repeat split; [exact E|].
        intros pre post _. apply len_nonneg.
    + destruct (IH (c :: cur)) as [IH1 IH2]. split.
      * intros Hn. rewrite IH1.
        -- simpl. rewrite <- app_assoc. reflexivity.
        -- intros Ho. apply Hn. apply occurs_cons. right. exact Ho.
      * intros Ho. apply occurs_cons in Ho as [Ho | Ho]; [congruence|].
        destruct (IH2 Ho) as (f & rest & tl & E1 & E2 & Hmin).
        exists (c :: f), rest, tl. repeat split.
        -- rewrite E1. simpl. rewrite <- app_assoc. reflexivity.
        -- rewrite E2. reflexivity.
        -- intros pre post Hp. destruct pre as [|d pre].
           ++ exfalso. assert (startswith (c :: s) sep = true); [|congruence].
              apply startswith_iff. exists post. exact Hp.
           ++ simpl in Hp. injection Hp as _ Hp.
              specialize (Hmin pre post Hp). rewrite !len_cons. lia.
Qed.

(** [s[:n]] keeps the first [n] characters, or all of [s] when it is
    shorter. *)
Lemma upto_firstn s n : 0 <= n -> upto s n = firstn (Z.to_nat n) s.
Proof.
  intros Hn. unfold upto, slice, adjust. pose proof (len_nonneg s).
  destruct (n <? 0) eqn:E; [lia|]. rewrite Z.sub_0_r. simpl skipn.
  destruct (Z_le_gt_dec n (len s)).
  - rewrite Z.min_l by lia. reflexivity.
  - rewrite Z.min_r by lia. unfold len in *.
    rewrite !firstn_all2 by lia. reflexivity.
Qed.

End SeparatorFacts.

(** ** Properties of loading and saving *)

(** X13: for a drop-down entry that contains [" ("], the name looked up in
    the store is what precedes the first [" ("]; no exception is raised. *)
Theorem filename_of_first_paren display_name :
  occurs (of_string " (") display_name ->
  exists f rest,
    filename_of display_name = Some f
    /\ display_name = f ++ of_string " (" ++ rest
    /\ forall pre post,
         display_name = pre ++ of_string " (" ++ post -> len f <= len pre.
Proof.
  intros Ho. unfold filename_of.
  replace (contains display_name (of_string " (")) with true
    by (symmetry; apply contains_iff; exact Ho).
  destruct (split_on_acc_head (of_string " (") ltac:(discriminate)
              display_name []) as [_ H].
  destruct (H Ho) as (f & rest & tl & E1 & E2 & Hmin).
  exists f, rest. unfold split_on. rewrite E1. simpl. auto.
Qed.

Lemma filename_of_first_paren_witness :
  exists f rest,
    filename_of (of_string "notes (2024) (copy)") = Some f
    /\ of_string "notes (2024) (copy)" = f ++ of_string " (" ++ rest
    /\ forall pre post,
         of_string "notes (2024) (copy)" = pre ++ of_string " (" ++ post ->
         len f <= len pre.
Proof.
  apply filename_of_first_paren.
  exists (of_string "notes"), (of_string "2024) (copy)"). reflexivity.
Defined.


(** X15: a document whose title contains [" ("] cannot be loaded under its
    title: if the store holds nothing under any other name, the load ends
    with the not-found warning for the shortened name, returns the empty
    text and leaves the editor as it was. *)
Theorem load_title_with_paren_not_found load_document self display_name :
  occurs (of_string " (") display_name ->
  (forall f, f <> display_name -> load_document f = None) ->
  exists r f,
    load_document_to_preparation load_document self display_name = Some r
    /\ f <> display_name
    /\ note_shown r
       = Warn (of_string "Document '" ++ f ++ of_string "' not found")
    /\ after r = self
    /\ fst (returned r) = [].
Proof.
  intros Ho Hstore.
  assert (Hx : exists f rest, filename_of display_name = Some f
                 /\ display_name = f ++ of_string " (" ++ rest).
  { unfold filename_of, split_on.
    replace (contains display_name (of_string " (")) with true
      by (symmetry; apply contains_iff; exact Ho).
    destruct (split_on_acc_head (of_string " (") ltac:(discriminate)
                display_name []) as [_ H].
    destruct (H Ho) as (f & rest & tl & -> & E & _).
    exists f, rest. split; [reflexivity | exact E]. }
  destruct Hx as (f & rest & Hf & Hd).
  assert (Hne : f <> display_name).
  { intros E. apply (f_equal len) in Hd. rewrite E, !len_app in Hd.
    pose proof (len_nonneg rest).
    change (len (of_string " (")) with 2 in Hd. lia. }
  unfold load_document_to_preparation.
  destruct display_name as [|c d'].
  { apply occurs_nil in Ho. discriminate Ho. }
  simpl negb. cbv iota. rewrite Hf, (Hstore f Hne).
  eexists; exists f. repeat split. exact Hne.
Qed.

Lemma load_title_with_paren_not_found_witness :
  exists r f,
    load_document_to_preparation
      (fun f => if eqb f (of_string "Report (final)") then Some doc0 else None)
      editor0 (of_string "Report (final)") = Some r
    /\ f <> of_string "Report (final)"
    /\ note_shown r
       = Warn (of_string "Document '" ++ f ++ of_string "' not found")
    /\ after r = editor0
    /\ fst (returned r) = [].
Proof.
  apply load_title_with_paren_not_found.
  - exists (of_string "Report"), (of_string "final)"). reflexivity.
  - intros f Hf. destruct (eqb f (of_string "Report (final)")) eqn:E;
      [|reflexivity].
    apply eqb_eq in E. contradiction.
Defined.

(** X16: [save_preparation_document] calls the store exactly when neither
    the file name nor the source text is empty or whitespace-only; when it
    does not, the editor is left as it was. *)
Theorem save_guards save_document self now now' filename source_text data :
  let r := save_preparation_document save_document self now now' filename
             source_text data in
  (returned r = None <-> blank filename = true \/ blank source_text = true)
  /\ (returned r = None -> after r = self).
Proof.
  cbv zeta. unfold save_preparation_document.
  rewrite (truthy_strip filename), (truthy_strip source_text).
  destruct (blank filename); simpl negb; cbv iota; [simpl; tauto|].
  destruct (blank source_text); simpl negb; cbv iota; [simpl; tauto|].
  destruct (save_document _); simpl; split;
    try (split; [discriminate | intros [H | H]; discriminate H]);
    discriminate.
Qed.

(** X17: saving with the footnote table exactly as [_format_footnotes]
    produced it sends the document's own footnotes to the store, with the
    source text as the text, the given file name as the title and a summary
    quoting at most the first 100 characters of the source; the editor's
    document takes the source text and keeps its footnotes. *)
Theorem save_untouched_table save_document self now now' filename source_text :
  blank filename = false -> blank source_text = false ->
  let r := save_preparation_document save_document self now now' filename
             source_text (Some (_format_footnotes self)) in
  exists call,
    returned r = Some call
    /\ footnotes (saved_document call) = footnotes (document self)
    /\ text (saved_document call) = source_text
    /\ saved_title call = filename
    /\ saved_summary call
       = of_string "Document created with TechEU Editor - "
           ++ firstn 100 source_text ++ of_string "..."
    /\ text (document (after r)) = source_text
    /\ footnotes (document (after r)) = footnotes (document self).
Proof.
  intros Bf Bs. cbv zeta. unfold save_preparation_document.
  rewrite (truthy_strip filename), (truthy_strip source_text), Bf, Bs.
  simpl negb. cbv iota zeta.
  assert (Hup : upto source_text 100 = firstn 100 source_text).
  { rewrite upto_firstn by lia. reflexivity. }
  assert (Hfs : match _format_footnotes self with
                | [] => False
                | row :: rows =>
                    map snd (filter (fun r => fst (fst r)) (row :: rows))
                    = footnotes (document self)
                end).
  { destruct (footnotes (document self)) as [|f fs] eqn:E.
    - unfold _format_footnotes. rewrite E. reflexivity.
    - rewrite (format_footnotes_nonempty self f fs E).
      assert (G : forall l start,
                 map snd (filter (fun r : footnote_row => fst (fst r))
                            (enumerate_rows start l)) = l).
      { induction l as [|g l IH]; intros start; simpl;
          [reflexivity | rewrite IH; reflexivity]. }
      specialize (G (f :: fs) 1). simpl in G |- *. exact G. }
  destruct (_format_footnotes self) as [|row rows]; [contradiction|].
  rewrite Hup.
  destruct (save_document _); eexists;
    (split; [reflexivity|]);
    cbn [returned after saved_document saved_title saved_summary footnotes
         text document set_document update_text];
    rewrite Hfs; repeat split.
Qed.

Lemma save_untouched_table_witness :
  let self := set_document editor0
                (update_footnotes doc0 [of_string "[1] A - https://a.example"]
                   clock1) in
  let r := save_preparation_document (fun _ => true) self clock1 clock2
             (of_string "notes") fox (Some (_format_footnotes self)) in
  exists call,
    returned r = Some call
    /\ footnotes (saved_document call) = footnotes (document self)
    /\ text (saved_document call) = fox
    /\ saved_title call = of_string "notes"
    /\ saved_summary call
       = of_string "Document created with TechEU Editor - "
           ++ firstn 100 fox ++ of_string "..."
    /\ text (document (after r)) = fox
    /\ footnotes (document (after r)) = footnotes (document self).
Proof. apply save_untouched_table; reflexivity. Defined.

(** ** Facts about [strip] and the pieces of [split(sep)] *)

Section StripFacts.

Implicit Types s t u ws cur sep : str.

Lemma lstrip_suffix s : exists ws, s = ws ++ lstrip s /\ blank ws = true.
Proof.
  induction s as [|c s (ws & E & B)]; simpl.
  - exists []. auto.
  - destruct (is_space c) eqn:Ec.
    + exists (c :: ws). simpl. rewrite Ec, B. split; [congruence | reflexivity].
    + exists []. auto.
Qed.

Lemma lstrip_fixed s c t : s = c :: t -> is_space c = false -> lstrip s = s.
Proof. intros -> E. simpl. rewrite E. reflexivity. Qed.

Lemma lstrip_idempotent s : lstrip (lstrip s) = lstrip s.
Proof.
  destruct (lstrip s) as [|c t] eqn:E; [reflexivity|].
  apply (lstrip_fixed _ c t eq_refl). apply (lstrip_head s c t E).
Qed.

(** A string without leading or trailing whitespace. *)
Lemma strip_trimmed s :
  lstrip (strip s) = strip s /\ rstrip (strip s) = strip s.
Proof.
  unfold strip, rstrip. set (u := lstrip s). set (v := lstrip (rev u)).
  assert (Hv : lstrip v = v) by apply lstrip_idempotent.
  split.
  - destruct (rev v) as [|c t] eqn:E; [reflexivity|].
    apply (lstrip_fixed _ c t eq_refl).
    destruct (lstrip_suffix (rev u)) as (ws & E1 & _). fold v in E1.
    apply (f_equal (@rev char)) in E1.
    rewrite rev_involutive, rev_app_distr, E in E1.
    apply (lstrip_head s c (t ++ rev ws)). exact E1.
  - rewrite rev_involutive, Hv. reflexivity.
Qed.

Lemma strip_idempotent s : strip (strip s) = strip s.
Proof.
  destruct (strip_trimmed s) as [H1 H2].
  unfold strip at 1. rewrite H1. exact H2.
Qed.

Lemma blank_strip s : blank s = true -> strip s = [].
Proof.
  intros B. apply truthy_false_iff. rewrite truthy_strip, B. reflexivity.
Qed.

Lemma blank_rev s : blank (rev s) = blank s.
Proof.
  induction s as [|c s IH]; [reflexivity|].
  simpl rev. rewrite blank_app, IH. simpl. rewrite andb_true_r.
  apply andb_comm.
Qed.

(** Every piece cut out of a blank string is blank. *)
Lemma split_on_acc_blank sep s : forall cur k l,
  blank s = true -> blank cur = true ->
  In l (split_on_acc sep s cur k) -> blank l = true.
Proof.
  induction s as [|c s IH]; intros cur k l Bs Bc.
  - simpl. intros [<- | []]. rewrite blank_rev. exact Bc.
  - simpl in Bs. apply andb_true_iff in Bs as [Bc0 Bs].
    destruct k as [|k].
    + rewrite split_on_acc_cons. destruct (startswith (c :: s) sep).
      * intros [<- | H]; [rewrite blank_rev; exact Bc|].
        apply (IH [] _ l Bs eq_refl H).
      * apply IH; [exact Bs | simpl; rewrite Bc0, Bc; reflexivity].
    + simpl. apply IH; assumption.
Qed.

End StripFacts.

(** ** Properties of the parser *)

Section ParserFacts.

Variable isdigit : str -> bool.
Variable to_int : str -> option Z.

Lemma parse_line_citations st line st' :
  parse_line isdigit to_int st line = Ret st' ->
  Forall citation (citations st) -> Forall citation (citations st').
Proof.
  unfold parse_line. cbv zeta.
  destruct (startswith (strip line) ARTICLE); [intros [= <-]; auto|].
  destruct (startswith (strip line) CITATIONS); [intros [= <-]; auto|].
  destruct (startswith (strip line) WORD_COUNT).
  { destruct (isdigit _); [destruct (to_int _)|]; intros [= <-]; auto. }
  destruct (is_article (current_section st) && truthy (strip line));
    [intros [= <-]; auto|].
  destruct (is_citations (current_section st)
            && startswith (strip line) bracket) eqn:E;
    [|intros [= <-]; auto].
  intros [= <-] H. simpl. apply Forall_app. split; [exact H|].
  constructor; [|constructor].
  apply andb_true_iff in E as [_ E]. split; [exact E | apply strip_idempotent].
Qed.

Lemma parse_lines_citations lines : forall st st',
  parse_lines isdigit to_int lines st = Ret st' ->
  Forall citation (citations st) -> Forall citation (citations st').
Proof.
  induction lines as [|line lines IH]; intros st st'; simpl.
  - intros [= <-]. auto.
  - destruct (parse_line isdigit to_int st line) as [st1|e] eqn:E; simpl; [|discriminate].
    intros H Hc. apply (IH st1 st' H).
    apply (parse_line_citations st line st1 E Hc).
Qed.

Lemma collect_citations_wf lines : forall b acc,
  Forall citation acc -> Forall citation (collect_citations lines b acc).
Proof.
  induction lines as [|line lines IH]; intros b acc Hacc; simpl; [exact Hacc|].
  destruct (startswith (strip line) CITATIONS); [apply IH; exact Hacc|].
  destruct (b && startswith (strip line) bracket) eqn:E; [|apply IH; exact Hacc].
  apply IH. apply Forall_app. split; [exact Hacc|].
  constructor; [|constructor].
  apply andb_true_iff in E as [_ E]. split; [exact E | apply strip_idempotent].
Qed.

Lemma collect_citations_acc lines : forall b acc,
  collect_citations lines b acc = acc ++ collect_citations lines b [].
Proof.
  induction lines as [|line lines IH]; intros b acc; simpl.
  - rewrite app_nil_r. reflexivity.
  - destruct (startswith (strip line) CITATIONS); [apply IH|].
    destruct (b && startswith (strip line) bracket); [|apply IH].
    rewrite (IH b (acc ++ [strip line])), (IH b [strip line]).
    rewrite <- app_assoc. reflexivity.
Qed.

End ParserFacts.

Section ParseResultFacts.

Variable isdigit : str -> bool.
Variable to_int : str -> option Z.

Lemma default_citations_wf : Forall citation default_citations.
Proof. repeat constructor. Qed.

(** What [_parse_result] returns, in terms of the state the first loop
    ends in. *)
Lemma parse_result_inv result topic r :
  _parse_result isdigit to_int result topic = Ret r ->
  exists st a cs wc,
    parse_lines isdigit to_int (split_on result newline)
      {| article := []; citations := []; word_count := 0;
         current_section := NoSection |} = Ret st
    /\ r = {| r_text := strip a; r_footnotes := cs;
              r_word_count := if negb (wc =? 0) then wc
                              else len_list (split a);
              r_validation_status := of_string "VALID";
              r_topic := topic |}
    /\ ((blank (article st) = true /\ blank result = false
         /\ a = strip (join newline
                         (collect_article (split_on result newline) []))
         /\ cs = (let c := collect_citations (split_on result newline) false
                             (citations st) in
                  if negb (truthy_list c) then default_citations else c)
         /\ wc = if truthy a then len_list (split a) else 0)
        \/ ((blank (article st) = false \/ blank result = true)
            /\ a = article st /\ cs = citations st /\ wc = word_count st)).
Proof.
  unfold _parse_result. cbv zeta.
  destruct (parse_lines _ _ _ _) as [st|e]; simpl bind; [|discriminate].
  rewrite (truthy_strip (article st)), (truthy_strip result), !negb_involutive.
  destruct (blank (article st)) eqn:Ba; simpl andb.
  - destruct (blank result) eqn:Br; simpl negb; cbv iota; intros [= <-];
      eexists st, _, _, _; (split; [reflexivity|]); (split; [reflexivity|]).
    + right. auto.
    + left. auto 10.
  - cbv iota. intros [= <-].
    eexists st, _, _, _; (split; [reflexivity|]); (split; [reflexivity|]).
    right. auto.
Qed.

Lemma parse_line_blank st line :
  blank line = true -> parse_line isdigit to_int st line = Ret st.
Proof.
  intros B. unfold parse_line. cbv zeta. rewrite (blank_strip _ B).
  simpl. rewrite !andb_false_r. reflexivity.
Qed.

Lemma parse_lines_blank lines st :
  Forall (fun l => blank l = true) lines ->
  parse_lines isdigit to_int lines st = Ret st.
Proof.
  induction 1 as [|l lines Hl _ IH]; simpl; [reflexivity|].
  rewrite (parse_line_blank st l Hl). exact IH.
Qed.

Lemma startswith_head s p c d t u :
  s = c :: t -> p = d :: u -> c <> d -> startswith s p = false.
Proof.
  intros -> -> Hne. simpl. destruct (N.eqb_spec d c); [congruence|reflexivity].
Qed.

Lemma marker_not_bracket line m :
  m = CITATIONS \/ m = WORD_COUNT -> startswith line m = true ->
  startswith line bracket = false.
Proof.
  intros Hm H. apply startswith_iff in H as [t ->].
  destruct Hm as [-> | ->]; reflexivity.
Qed.

(** Without an [ARTICLE:] line the first loop leaves the article empty and
    gathers the citations the fallback loop gathers. *)
Lemma parse_lines_no_article lines : forall st st',
  Forall (fun l => startswith (strip l) ARTICLE = false) lines ->
  is_article (current_section st) = false -> article st = [] ->
  parse_lines isdigit to_int lines st = Ret st' ->
  article st' = []
  /\ citations st'
     = collect_citations lines (is_citations (current_section st))
         (citations st).
Proof.
  induction lines as [|line lines IH]; intros st st' Hno Hsec Hart; simpl.
  - intros [= <-]. auto.
  - inversion Hno as [|? ? Hl Hrest]; subst.
    unfold parse_line at 1. cbv zeta. rewrite Hl.
    destruct (startswith (strip line) CITATIONS) eqn:EC.
    { simpl bind. intros H.
      apply (IH _ st' Hrest) in H; [|reflexivity | exact Hart]. exact H. }
    destruct (startswith (strip line) WORD_COUNT) eqn:EW.
    { rewrite (marker_not_bracket (strip line) WORD_COUNT (or_intror eq_refl) EW).
      rewrite andb_false_r.
      destruct (isdigit _); [destruct (to_int _); [|discriminate]|];
        simpl bind; intros H;
        apply (IH _ st' Hrest) in H; try assumption; exact H. }
    rewrite Hsec. simpl andb.
    destruct (is_citations (current_section st)
              && startswith (strip line) bracket) eqn:E; simpl bind; intros H.
    + apply (IH _ st' Hrest) in H; [|exact Hsec | exact Hart]. simpl in H.
      apply andb_true_iff in E as [E _]. rewrite E in *. exact H.
    + apply (IH _ st' Hrest) in H; assumption.
Qed.

End ParseResultFacts.

Lemma parse_result_wf isdigit to_int result topic r :
  _parse_result isdigit to_int result topic = Ret r ->
  strip (r_text r) = r_text r /\ Forall citation (r_footnotes r).
Proof.
  intros H.
  destruct (parse_result_inv isdigit to_int result topic r H)
    as (st & a & cs & wc & Hst & -> & Hcase).
  simpl. split; [apply strip_idempotent|].
  assert (Hc : Forall citation (citations st)).
  { apply (parse_lines_citations isdigit to_int _ _ st Hst). constructor. }
  destruct Hcase as [(_ & _ & _ & -> & _) | (_ & _ & -> & _)]; [|exact Hc].
  cbv zeta. destruct (negb (truthy_list _)); [apply default_citations_wf|].
  apply collect_citations_wf. exact Hc.
Qed.

(** X18: whatever the model answers, a result [_parse_result] returns is
    well formed: the text has no leading or trailing whitespace, every
    footnote is a stripped line that opens with a bracket, the status is
    ["VALID"] and the topic is the one passed in. *)
Theorem parse_result_wellformed isdigit to_int result topic r :
  _parse_result isdigit to_int result topic = Ret r ->
  strip (r_text r) = r_text r
  /\ Forall citation (r_footnotes r)
  /\ r_validation_status r = of_string "VALID"
  /\ r_topic r = topic.
Proof.
  intros H.
  destruct (parse_result_wf isdigit to_int result topic r H) as [Ht Hf].
  destruct (parse_result_inv isdigit to_int result topic r H)
    as (st & a & cs & wc & _ & E & _).
  split; [exact Ht|]. split; [exact Hf|]. rewrite E. simpl. auto.
Qed.

Lemma parse_result_wellformed_witness :
  let r := {| r_text := of_string "Rust is fast [1]. It is safe [2].";
              r_footnotes :=
                [of_string "[1] Rust book - https://doc.rust-lang.org";
                 of_string "[2] Blog - https://example.com"];
              r_word_count := 7;
              r_validation_status := of_string "VALID";
              r_topic := of_string "rust" |} in
  strip (r_text r) = r_text r
  /\ Forall citation (r_footnotes r)
  /\ r_validation_status r = of_string "VALID"
  /\ r_topic r = of_string "rust".
Proof.
  apply (parse_result_wellformed isdigit_ascii to_int_ascii sample_output).
  reflexivity.
Defined.

(** X19: a result that reports zero words has an empty text. *)
Theorem parse_result_zero_words isdigit to_int result topic r :
  _parse_result isdigit to_int result topic = Ret r ->
  r_word_count r = 0 -> r_text r = [].
Proof.
  intros H.
  destruct (parse_result_inv isdigit to_int result topic r H)
    as (st & a & cs & wc & _ & -> & _).
  simpl. destruct (wc =? 0) eqn:E; simpl.
  - unfold len_list. intros H0. apply blank_strip.
    apply (split_acc_nil_iff a []).
    destruct (split a) eqn:Es; [exact Es | simpl in H0; lia].
  - apply Z.eqb_neq in E. congruence.
Qed.

Lemma parse_result_zero_words_witness :
  r_text {| r_text := []; r_footnotes := []; r_word_count := 0;
            r_validation_status := of_string "VALID";
            r_topic := of_string "rust" |} = [].
Proof.
  apply (parse_result_zero_words isdigit_ascii to_int_ascii (of_string "  ")
           (of_string "rust")); reflexivity.
Defined.

(** X20: an answer that is empty or whitespace-only parses, without an
    exception, to the empty text with no footnotes and zero words. *)
Theorem parse_result_blank isdigit to_int result topic :
  blank result = true ->
  _parse_result isdigit to_int result topic
  = Ret {| r_text := []; r_footnotes := []; r_word_count := 0;
           r_validation_status := of_string "VALID"; r_topic := topic |}.
Proof.
  intros B. unfold _parse_result. cbv zeta.
  rewrite parse_lines_blank.
  - simpl bind. simpl article. rewrite (truthy_strip result), B. reflexivity.
  - apply Forall_forall. intros l Hl.
    apply (split_on_acc_blank newline result [] 0%nat l B eq_refl Hl).
Qed.

Lemma parse_result_blank_witness :
  _parse_result isdigit_ascii to_int_ascii (of_string "  ") (of_string "rust")
  = Ret {| r_text := []; r_footnotes := []; r_word_count := 0;
           r_validation_status := of_string "VALID";
           r_topic := of_string "rust" |}.
Proof. apply parse_result_blank. reflexivity. Defined.

(** X21: when no line of the answer opens with [ARTICLE:] and the answer
    is not whitespace-only, the fallback runs on top of the citations the
    first loop already gathered: the footnotes are the two default
    citations, or else every citation found is listed twice; the word count
    is the number of words of the returned text. *)
Theorem parse_result_unstructured isdigit to_int result topic r :
  Forall (fun l => startswith (strip l) ARTICLE = false)
         (split_on result newline) ->
  blank result = false ->
  _parse_result isdigit to_int result topic = Ret r ->
  (r_footnotes r = default_citations
   \/ exists cs, cs <> [] /\ r_footnotes r = cs ++ cs)
  /\ r_word_count r = len_list (split (r_text r)).
Proof.
  intros Hno Br H.
  destruct (parse_result_inv isdigit to_int result topic r H)
    as (st & a & cs & wc & Hst & -> & Hcase).
  destruct (parse_lines_no_article isdigit to_int (split_on result newline)
              {| article := []; citations := []; word_count := 0;
                 current_section := NoSection |} st Hno eq_refl eq_refl Hst)
    as [Ha Hc].
  simpl in Hc.
  destruct Hcase as [(_ & _ & Ea & Ecs & Ewc) | ([Bn | Bn] & _)].
  - simpl. split.
    + subst cs. cbv zeta. rewrite Hc, collect_citations_acc.
      destruct (collect_citations _ false []) as [|c l] eqn:E; simpl.
      * left. reflexivity.
      * right. exists (c :: l). split; [discriminate | reflexivity].
    + assert (Hs : strip a = a) by (rewrite Ea; apply strip_idempotent).
      rewrite Hs, Ewc. destruct (truthy a) eqn:Et.
      * destruct (len_list (split a) =? 0) eqn:E0; simpl; reflexivity.
      * reflexivity.
  - rewrite Ha in Bn. discriminate.
  - congruence.
Qed.

Lemma parse_result_unstructured_witness :
  let r := {| r_text := of_string "Rust is fast.";
              r_footnotes :=
                [of_string "[1] Rust book - https://doc.rust-lang.org";
                 of_string "[1] Rust book - https://doc.rust-lang.org"];
              r_word_count := 3;
              r_validation_status := of_string "VALID";
              r_topic := of_string "rust" |} in
  (r_footnotes r = default_citations
   \/ exists cs, cs <> [] /\ r_footnotes r = cs ++ cs)
  /\ r_word_count r = len_list (split (r_text r)).
Proof.
  apply (parse_result_unstructured isdigit_ascii to_int_ascii
           sample_unstructured (of_string "rust")).
  - vm_compute. repeat constructor.
  - reflexivity.
  - reflexivity.
Defined.

(** ** Facts about splitting on one character *)

Section CharSplit.

Variable c : char.
Implicit Types s a rest cur : str.

Lemma startswith_char x s : startswith (x :: s) [c] = (c =? x)%N.
Proof. simpl. destruct s; apply andb_true_r. Qed.

Lemma split_char_none s : forall cur,
  ~ In c s -> split_on_acc [c] s cur 0 = [rev cur ++ s].
Proof.
  induction s as [|x s IH]; intros cur Hn.
  - simpl. rewrite app_nil_r. reflexivity.
  - rewrite split_on_acc_cons, startswith_char.
    destruct (N.eqb_spec c x) as [-> | Hne]; [exfalso; apply Hn; left; reflexivity|].
    rewrite IH by (intros H; apply Hn; right; exact H).
    simpl. rewrite <- app_assoc. reflexivity.
Qed.

Lemma split_char_next a : forall rest cur,
  ~ In c a ->
  split_on_acc [c] (a ++ c :: rest) cur 0
  = (rev cur ++ a) :: split_on_acc [c] rest [] 0.
Proof.
  induction a as [|x a IH]; intros rest cur Hn.
  - simpl app. rewrite split_on_acc_cons, startswith_char, N.eqb_refl.
    rewrite app_nil_r. reflexivity.
  - simpl app. rewrite split_on_acc_cons, startswith_char.
    destruct (N.eqb_spec c x) as [-> | Hne]; [exfalso; apply Hn; left; reflexivity|].
    rewrite IH by (intros H; apply Hn; right; exact H).
    simpl. rewrite <- app_assoc. reflexivity.
Qed.

Lemma contains_char_iff s : contains s [c] = true <-> In c s.
Proof.
  induction s as [|x s IH].
  - simpl. split; [discriminate | tauto].
  - change (contains (x :: s) [c]) with (startswith (x :: s) [c] || contains s [c]).
    rewrite startswith_char, orb_true_iff, IH, N.eqb_eq. simpl.
    split; intros [H | H]; auto.
Qed.

End CharSplit.

Section SlashFacts.

Implicit Types a rest cur s : str.

Lemma split_slash_none s cur :
  ~ In 47%N s -> split_on_acc (of_string "/") s cur 0 = [rev cur ++ s].
Proof. exact (split_char_none 47%N s cur). Qed.

Lemma split_slash_next a rest cur :
  ~ In 47%N a ->
  split_on_acc (of_string "/") (a ++ of_string "/" ++ rest) cur 0
  = (rev cur ++ a) :: split_on_acc (of_string "/") rest [] 0.
Proof. exact (split_char_next 47%N a rest cur). Qed.

Lemma contains_slash_iff s : contains s (of_string "/") = true <-> In 47%N s.
Proof. exact (contains_char_iff 47%N s). Qed.

Lemma contains_slash_middle a rest :
  contains (a ++ of_string "/" ++ rest) (of_string "/") = true.
Proof. apply contains_slash_iff. apply in_or_app. right. left. reflexivity. Qed.

End SlashFacts.

(** ** Properties of generation and of the prompt box *)

Lemma scrape_one_slash scrape_kickoff (a b : str) target_words :
  ~ In 47%N a -> ~ In 47%N b ->
  scrape_and_summarize scrape_kickoff (a ++ of_string "/" ++ b) target_words
  = Raise IndexError.
Proof.
  intros Ha Hb. unfold scrape_and_summarize. cbv zeta.
  rewrite contains_slash_middle. unfold split_on.
  rewrite (split_slash_next a b [] Ha), (split_slash_none b [] Hb).
  reflexivity.
Qed.

(** X22: for a URL with exactly one slash, [scrape_and_summarize] raises
    [IndexError], whatever the scraping model answered. *)
Theorem scrape_one_slash_raises scrape_kickoff (a b : str) target_words :
  ~ In 47%N a -> ~ In 47%N b ->
  scrape_and_summarize scrape_kickoff (a ++ of_string "/" ++ b) target_words
  = Raise IndexError.
Proof.
  intros Ha Hb. unfold scrape_and_summarize. cbv zeta.
  rewrite contains_slash_middle. unfold split_on.
  rewrite (split_slash_next a b [] Ha), (split_slash_none b [] Hb).
  reflexivity.
Qed.

Lemma scrape_one_slash_raises_witness :
  scrape_and_summarize scrape_stub
    (of_string "example.com" ++ of_string "/" ++ of_string "page") None
  = Raise IndexError.
Proof.
  apply scrape_one_slash_raises; vm_compute; intuition discriminate.
Defined.

(** X23: for a URL of the shape [scheme://host] or [scheme://host/path]
    the title is ["Content from host"]; for a URL without any slash it is
    ["Content from "] followed by the URL.  The summary is the model's
    answer stripped and the word count is that of the answer. *)
Theorem scrape_title scrape_kickoff (a b host tail : str) target_words :
  ~ In 47%N a -> ~ In 47%N b -> ~ In 47%N host ->
  tail = [] \/ (exists t, tail = 47%N :: t) ->
  let url := a ++ of_string "/" ++ b ++ of_string "/" ++ host ++ tail in
  let answer :=
    scrape_kickoff url (match target_words with
                        | None => 150
                        | Some t => t
                        end) in
  scrape_and_summarize scrape_kickoff url target_words
  = Ret {| s_url := url;
           s_title := of_string "Content from " ++ host;
           s_summary := strip answer;
           s_success := true;
           s_method := of_string "aci_tools";
           s_summary_word_count := len_list (split answer) |}
  /\ scrape_and_summarize scrape_kickoff host target_words
     = Ret {| s_url := host;
              s_title := of_string "Content from " ++ host;
              s_summary :=
                strip (scrape_kickoff host (match target_words with
                                            | None => 150
                                            | Some t => t
                                            end));
              s_success := true;
              s_method := of_string "aci_tools";
              s_summary_word_count :=
                len_list (split (scrape_kickoff host
                                   (match target_words with
                                    | None => 150
                                    | Some t => t
                                    end))) |}.
Proof.
  intros Ha Hb Hh Htail. cbv zeta.
  assert (Htw : (match target_words with
                 | Some t => t
                 | None => Z.min MAX_SCRAPING_WORDS 150
                 end) = match target_words with
                        | None => 150
                        | Some t => t
                        end) by (destruct target_words; reflexivity).
  split.
  - unfold scrape_and_summarize. cbv zeta. rewrite Htw.
    rewrite contains_slash_middle. unfold split_on.
    rewrite (split_slash_next a _ [] Ha), (split_slash_next b _ [] Hb).
    destruct Htail as [-> | (t & ->)].
    + rewrite app_nil_r, (split_slash_none host [] Hh). reflexivity.
    + change (47%N :: t) with (of_string "/" ++ t).
      rewrite (split_slash_next host t [] Hh). reflexivity.
  - unfold scrape_and_summarize. cbv zeta. rewrite Htw.
    destruct (contains host (of_string "/")) eqn:E; [|reflexivity].
    apply contains_slash_iff in E. contradiction.
Qed.

Lemma scrape_title_witness :
  let url := of_string "https:" ++ of_string "/" ++ [] ++ of_string "/"
               ++ of_string "example.com" ++ of_string "/a/b" in
  let answer := scrape_stub url 100 in
  scrape_and_summarize scrape_stub url (Some 100)
  = Ret {| s_url := url;
           s_title := of_string "Content from " ++ of_string "example.com";
           s_summary := strip answer;
           s_success := true;
           s_method := of_string "aci_tools";
           s_summary_word_count := len_list (split answer) |}
  /\ scrape_and_summarize scrape_stub (of_string "example.com") (Some 100)
     = Ret {| s_url := of_string "example.com";
              s_title := of_string "Content from " ++ of_string "example.com";
              s_summary := strip (scrape_stub (of_string "example.com") 100);
              s_success := true;
              s_method := of_string "aci_tools";
              s_summary_word_count :=
                len_list (split (scrape_stub (of_string "example.com") 100)) |}.
Proof.
  apply (scrape_title scrape_stub (of_string "https:") [] (of_string "example.com")
           (of_string "/a/b") (Some 100));
    try (vm_compute; intuition discriminate).
  right. eexists. reflexivity.
Defined.

(** X24: [generate_from_url] raises [IndexError] for every URL that, once
    stripped, has exactly one slash (a host and a path without a scheme),
    whatever the editor holds and whatever the models answer; so do
    [generate_text] and [_generate_text] on it. *)
Theorem generate_from_url_one_slash_raises
    isdigit to_int scrape_kickoff research_kickoff self now url (a b : str)
    topic :
  strip url = a ++ of_string "/" ++ b ->
  ~ In 47%N a -> ~ In 47%N b ->
  generate_from_url isdigit to_int scrape_kickoff research_kickoff self now url
  = Raise IndexError
  /\ _generate_text isdigit to_int scrape_kickoff research_kickoff self now
       topic (Some url) = Raise IndexError
  /\ generate_text isdigit to_int scrape_kickoff research_kickoff topic
       (Some url) = Raise IndexError.
Proof.
  intros Eu Ha Hb.
  assert (Ht : truthy (strip url) = true).
  { rewrite Eu. destruct a; reflexivity. }
  assert (Hnz : truthy url = true).
  { destruct url; [discriminate Ht | reflexivity]. }
  assert (G : forall t, generate_text isdigit to_int scrape_kickoff
                          research_kickoff t (Some (strip url))
                        = Raise IndexError).
  { intros t. unfold generate_text. rewrite strip_idempotent, Ht.
    simpl andb. cbv iota.
    rewrite Eu, (scrape_one_slash scrape_kickoff a b _ Ha Hb).
    reflexivity. }
  repeat split.
  - unfold generate_from_url. rewrite Ht. simpl negb. cbv iota zeta.
    unfold _generate_text. cbv zeta. rewrite strip_idempotent, Ht, G.
    reflexivity.
  - unfold _generate_text. cbv zeta. rewrite Ht, G. reflexivity.
  - unfold generate_text. rewrite Hnz, Ht. simpl andb. cbv iota.
    rewrite Eu, (scrape_one_slash scrape_kickoff a b _ Ha Hb).
    reflexivity.
Qed.

Lemma generate_from_url_one_slash_raises_witness :
  generate_from_url isdigit_ascii to_int_ascii scrape_stub research_stub
    editor0 clock1 (of_string " example.com/page ") = Raise IndexError
  /\ _generate_text isdigit_ascii to_int_ascii scrape_stub research_stub
       editor0 clock1 (of_string "rust") (Some (of_string " example.com/page "))
     = Raise IndexError
  /\ generate_text isdigit_ascii to_int_ascii scrape_stub research_stub
       (of_string "rust") (Some (of_string " example.com/page "))
     = Raise IndexError.
Proof.
  apply (generate_from_url_one_slash_raises _ _ _ _ _ _ _
           (of_string "example.com") (of_string "page"));
    vm_compute; intuition discriminate.
Defined.

Section PipelineFacts.

Variable isdigit : str -> bool.
Variable to_int : str -> option Z.
Variable scrape_kickoff : str -> Z -> str.
Variable research_kickoff : str -> option (str * str) -> str.
Variable modify_kickoff : str -> str -> str -> str.
Variable suffix_lower : str -> str.
Variable file_exists : str -> bool.
Variable ELEVENLABS_API_KEY : option str.
Variable convert : str -> str.


Lemma strip_space_cons s : strip (of_string " " ++ s) = strip s.
Proof. reflexivity. Qed.

Lemma transcribe_files_unsupported files : forall acc,
  Forall (fun f => member (suffix_lower f) SUPPORTED_AUDIO_FORMATS = false)
         files ->
  transcribe_files suffix_lower file_exists ELEVENLABS_API_KEY convert files acc
  = Ret acc.
Proof.
  induction files as [|f files IH]; intros acc Hf; [reflexivity|].
  inversion Hf as [|? ? H1 H2]; subst. cbn [transcribe_files].
  rewrite H1, andb_false_r. apply IH. exact H2.
Qed.

(** What [execute_action] does once a non-empty prompt is extracted and
    the panel is ["modification"]. *)
Lemma execute_action_modification self now mm source context modification
    url p :
  _extract_prompt_from_multimodal suffix_lower file_exists ELEVENLABS_API_KEY
    convert mm = Ret p ->
  p <> [] ->
  execute_action isdigit to_int scrape_kickoff research_kickoff modify_kickoff
    suffix_lower file_exists ELEVENLABS_API_KEY convert self now (Some mm)
    source context modification (of_string "modification") url
  = let processing :=
      Inform (of_string "Processing: " ++ upto p 80 ++ of_string "...") in
    if negb (blank context) || negb (blank modification) then
      let text_to_modify := if truthy context then context else modification in
      if negb (blank text_to_modify) then
        Ret {| ed := self; notes := [processing];
               out := Some (source, context,
                            strip (modify_kickoff source text_to_modify p),
                            _format_footnotes self, Some empty_multimodal) |}
      else
        Ret {| ed := self;
               notes := [processing;
                         Warn (of_string
                                 "No text available to modify in modification mode.")];
               out := Some (source, context, modification,
                            _format_footnotes self, Some empty_multimodal) |}
    else Ret {| ed := self; notes := [processing]; out := None |}.
Proof.
  intros Hp Hne. unfold execute_action. rewrite Hp. simpl bind.
  destruct p as [|c p]; [contradiction|]. simpl negb. cbv iota.
  change (eqb (of_string "modification") (of_string "preparation")) with false.
  change (eqb (of_string "modification") (of_string "modification")) with true.
  cbv iota zeta.
  rewrite (truthy_strip context), (truthy_strip modification).
  destruct (negb (blank context) || negb (blank modification)); [|reflexivity].
  rewrite (truthy_strip (if truthy context then context else modification)).
  destruct (negb (blank (if truthy context then context else modification)))
    eqn:E; [|reflexivity].
  unfold _modify_text. rewrite truthy_strip, E. reflexivity.
Qed.

End PipelineFacts.

(** X25: when no attached file has a supported audio suffix (in
    particular, when there is none), the prompt is the typed text,
    stripped; nothing is transcribed and no API key is needed. *)
Theorem extract_prompt_text_only suffix_lower file_exists key convert mm :
  Forall (fun f => member (suffix_lower f) SUPPORTED_AUDIO_FORMATS = false)
         (mm_files mm) ->
  _extract_prompt_from_multimodal suffix_lower file_exists key convert mm
  = Ret (strip (mm_text mm)).
Proof.
  intros Hf. unfold _extract_prompt_from_multimodal. cbv zeta.
  assert (E : (if truthy_list (mm_files mm)
               then transcribe_files suffix_lower file_exists key convert
                      (mm_files mm) []
               else Ret []) = Ret []).
  { destruct (truthy_list (mm_files mm)); [|reflexivity].
    apply transcribe_files_unsupported. exact Hf. }
  rewrite E. reflexivity.
Qed.

Lemma extract_prompt_text_only_witness :
  _extract_prompt_from_multimodal suffix_stub exists_stub None convert_stub
    {| mm_text := of_string " make it formal ";
       mm_files := [of_string "notes.txt"] |}
  = Ret (strip (of_string " make it formal ")).
Proof.
  apply extract_prompt_text_only. repeat constructor.
Defined.

(** X26: submitting a typed prompt while the panel is ["modification"] and
    both the context and the modification areas are empty or
    whitespace-only makes [execute_action] run off its end and return
    [None], so [handle_execute_action] raises [TypeError] when it unpacks the
    result. *)
Theorem handle_execute_action_blank_areas_raises
    isdigit to_int scrape_kickoff research_kickoff modify_kickoff
    suffix_lower file_exists key convert
    editor now mm source context modification url :
  mm_files mm = [] -> blank (mm_text mm) = false ->
  blank context = true -> blank modification = true ->
  handle_execute_action isdigit to_int scrape_kickoff research_kickoff
    modify_kickoff suffix_lower file_exists key convert
    editor now (Some mm) source context modification
    (of_string "modification") url
  = Raise TypeError.
Proof.
  intros Hf Bt Bc Bm. unfold handle_execute_action.
  assert (Hp : _extract_prompt_from_multimodal suffix_lower file_exists key
                 convert mm = Ret (strip (mm_text mm))).
  { unfold _extract_prompt_from_multimodal. rewrite Hf. reflexivity. }
  assert (Hne : strip (mm_text mm) <> []).
  { intros E. apply truthy_false_iff in E. rewrite truthy_strip, Bt in E.
    discriminate E. }
  rewrite (execute_action_modification isdigit to_int scrape_kickoff
             research_kickoff modify_kickoff suffix_lower file_exists key
             convert editor now mm source context modification (Some url)
             _ Hp Hne).
  cbv zeta. rewrite Bc, Bm. reflexivity.
Qed.

Lemma handle_execute_action_blank_areas_raises_witness :
  handle_execute_action isdigit_ascii to_int_ascii scrape_stub research_stub
    modify_stub suffix_stub exists_stub None convert_stub
    editor0 clock1
    (Some {| mm_text := of_string "make it formal"; mm_files := [] |})
    fox [] (of_string " ") (of_string "modification") []
  = Raise TypeError.
Proof.
  apply handle_execute_action_blank_areas_raises; reflexivity.
Defined.






